(** * Shortify Link: the link registry and the click recorder

    A shallow embedding of [links/utils.py], [links/models.py] and
    [links/services.py], with the theorems that settle the specification's
    claims about them.

    Python strings are [string]s whose characters are code points below 256
    (WSGI hands header values over as Latin-1 text).  Dictionaries are
    [gmap]s.  Code that raises, logs, reads the clock, draws random
    characters or talks to the database lives in the monad [M] below. *)

From Stdlib Require Import Ascii String Sorted.
From stdpp Require Import gmap strings list.

Local Open Scope string_scope.
Local Open Scope list_scope.
Local Open Scope nat_scope.

(** ** Python's [str] operations used by the services *)

Module Str.

(** [str.startswith(prefix)] *)
Fixpoint startswith (s p : string) {struct p} : bool :=
  match p with
  | EmptyString => true
  | String a p' =>
      match s with
      | EmptyString => false
      | String b s' => Ascii.eqb a b && startswith s' p'
      end
  end.

(** [str.startswith((p1, p2, ...))] *)
Definition startswith_any (s : string) (prefixes : list string) : bool :=
  existsb (startswith s) prefixes.

(** [needle in hay] *)
Fixpoint contains (needle hay : string) : bool :=
  startswith hay needle ||
  match hay with
  | EmptyString => false
  | String _ hay' => contains needle hay'
  end.

(** [str.lower()] on one code point below 256: [A-Z] and the Latin-1
    capitals U+00C0..U+00DE (the multiplication sign U+00D7 apart) move
    up by 32, the other code points stay. *)
Definition lower_char (c : ascii) : ascii :=
  let n := nat_of_ascii c in
  if ((65 <=? n) && (n <=? 90))%nat then ascii_of_nat (n + 32)
  else if ((192 <=? n) && (n <=? 222) && negb (n =? 215))%nat
       then ascii_of_nat (n + 32)
       else c.

Fixpoint lower (s : string) : string :=
  match s with
  | EmptyString => EmptyString
  | String c s' => String (lower_char c) (lower s')
  end.

(** [c.isspace()] for a code point below 256. *)
Definition isspace (c : ascii) : bool :=
  let n := nat_of_ascii c in
  (((9 <=? n) && (n <=? 13)) || ((28 <=? n) && (n <=? 32))
   || (n =? 133) || (n =? 160))%nat.

Fixpoint lstrip (s : string) : string :=
  match s with
  | EmptyString => EmptyString
  | String c s' => if isspace c then lstrip s' else s
  end.

Fixpoint rstrip (s : string) : string :=
  match s with
  | EmptyString => EmptyString
  | String c s' =>
      match rstrip s' with
      | EmptyString => if isspace c then EmptyString else String c EmptyString
      | r => String c r
      end
  end.

(** [str.strip()] *)
Definition strip (s : string) : string := rstrip (lstrip s).

(** [str.split(sep)] for a one-character separator: never the empty
    list, [""] splits into [[""]]. *)
Fixpoint split (sep : ascii) (s : string) : list string :=
  match s with
  | EmptyString => [EmptyString]
  | String c s' =>
      if Ascii.eqb c sep then EmptyString :: split sep s'
      else match split sep s' with
           | [] => [String c EmptyString]
           | x :: xs => String c x :: xs
           end
  end.

(** [s[:n]] *)
Fixpoint take (n : nat) (s : string) : string :=
  match n, s with
  | S n', String c s' => String c (take n' s')
  | _, _ => EmptyString
  end.

(** ["".join(chars)] *)
Definition join (cs : list ascii) : string :=
  foldr String EmptyString cs.

(** [s[i]] as an option: [None] is Python's [IndexError]. *)
Fixpoint index (s : string) (i : nat) : option ascii :=
  match s, i with
  | EmptyString, _ => None
  | String c _, 0 => Some c
  | String _ s', S i' => index s' i'
  end.

(** Characters of a string, for statements about every character. *)
Fixpoint chars (s : string) : list ascii :=
  match s with
  | EmptyString => []
  | String c s' => c :: chars s'
  end.

Definition all_space (s : string) : Prop :=
  Forall (λ c, isspace c = true) (chars s).

(** [c] is one of [a-zA-Z0-9]. *)
Definition isalnum (c : ascii) : bool :=
  let n := nat_of_ascii c in
  (((48 <=? n) && (n <=? 57)) || ((65 <=? n) && (n <=? 90))
   || ((97 <=? n) && (n <=? 122)))%nat.

End Str.

(** ** Exceptions, outcomes and the log *)

(** The subclasses of Python's [Exception] that the services raise or meet.
    [OtherException] stands for any further subclass, such as Django's
    [TooManyFieldsSent] raised while [request.GET] parses a query string. *)
Inductive Exn : Type :=
| ValidationError (message : string)
| IntegrityError (message : string)
| RuntimeError (message : string)
| IndexError
| Http404
| OtherException (name : string).

Inductive Outcome (A : Type) : Type :=
| Return (a : A)
| Raise (e : Exn).
Arguments Return {A} a.
Arguments Raise {A} e.

Inductive Level : Type := INFO | WARNING | ERROR.

(** One constructor per [logger] call of the services and the redirect
    view; the arguments are the values interpolated into the message. *)
Inductive LogEvent : Type :=
| ReturningExisting (short_code url50 : string)
| CreatedNew (short_code url50 : string)
| CodeCollision (attempt_plus_1 : nat) (short_code : string)
| UrlValidationFailed (original_url : string) (e : Exn)
| UnexpectedCreateError (e : Exn)
| RecordedClick (short_code : string) (ip : option string)
| RecordClickFailed (short_code : string) (e : Exn)
| ClickTrackingFailed (short_code : string) (e : Exn).

(** ** The data model ([links/models.py]) *)

Module ShortLink.
Record t : Type := Build {
  id : nat;
  original_url : string;
  short_code : string;
  created_at : nat;
  clicks_count : nat
}.
End ShortLink.

Module Click.
Record t : Type := Build {
  id : nat;
  short_link : nat;  (* foreign key: [ShortLink.id] of the owning link *)
  clicked_at : nat;
  query_params : option (gmap string string);
  user_agent : option string;
  referrer : option string;
  ip_address : option string
}.
End Click.

(** The two tables in storage order, with their [AUTOINCREMENT] counters. *)
Record Database : Type := {
  links_shortlink : list ShortLink.t;
  links_click : list Click.t;
  shortlink_seq : nat;
  click_seq : nat
}.

(** What a request handler can touch: the database, the wall clock, the
    operating system's random source ([urandom], of which [drawn] values
    have been consumed) and the log. *)
Record World : Type := {
  db : Database;
  now : nat;
  urandom : nat → nat;
  drawn : nat;
  log : list (Level * LogEvent)
}.

Definition set_db (d : Database) (w : World) : World :=
  {| db := d; now := now w; urandom := urandom w; drawn := drawn w; log := log w |}.

(** ** The monad of request handlers: state and exceptions *)

Definition M (A : Type) : Type := World → Outcome A * World.

Definition ret {A} (a : A) : M A := λ w, (Return a, w).

Definition raise {A} (e : Exn) : M A := λ w, (Raise e, w).

Definition bind {A B} (m : M A) (k : A → M B) : M B := λ w,
  match m w with
  | (Return a, w') => k a w'
  | (Raise e, w') => (Raise e, w')
  end.

Declare Scope py_scope.
Delimit Scope py_scope with py.
Notation "'let*' x ':=' m 'in' k" := (bind m (λ x, k))
  (at level 10, x name, m at level 100, k at level 200) : py_scope.
Notation "m '>>' k" := (bind m (λ _, k))
  (at level 100, k at level 200, right associativity) : py_scope.
Local Open Scope py_scope.

(** [try: body / except ...: handler].  The clauses are one function from
    the exception to the handler that catches it; [None] lets it pass. *)
Definition try_except {A} (body : M A) (clauses : Exn → option (M A)) : M A := λ w,
  match body w with
  | (Return a, w') => (Return a, w')
  | (Raise e, w') =>
      match clauses e with
      | Some handler => handler w'
      | None => (Raise e, w')
      end
  end.

Definition logger (lvl : Level) (ev : LogEvent) : M unit := λ w,
  (Return tt,
   {| db := db w; now := now w; urandom := urandom w; drawn := drawn w;
      log := log w ++ [(lvl, ev)] |}).

(** [secrets.randbelow(n)]: the next value of the random source, reduced
    below [n]. *)
Definition randbelow (n : nat) : M nat := λ w,
  (Return (urandom w (drawn w) mod n),
   {| db := db w; now := now w; urandom := urandom w; drawn := S (drawn w);
      log := log w |}).

(** [secrets.choice(seq)] *)
Definition choice (seq : string) : M ascii :=
  match seq with
  | EmptyString => raise IndexError
  | _ => let* i := randbelow (String.length seq) in
         match Str.index seq i with
         | Some c => ret c
         | None => raise IndexError
         end
  end.

(** Runs [m] for each element of [range(n)] and collects the results. *)
Fixpoint for_range {A} (n : nat) (m : M A) : M (list A) :=
  match n with
  | 0 => ret []
  | S n' => let* x := m in
            let* xs := for_range n' m in
            ret (x :: xs)
  end.

(** ** [links/utils.py] *)

(** [string.ascii_letters + string.digits] *)
Definition alphabet : string :=
  "abcdefghijklmnopqrstuvwxyzABCDEFGHIJKLMNOPQRSTUVWXYZ0123456789".

Definition generate_short_code (length : nat) : M string :=
  let* cs := for_range length (choice alphabet) in
  ret (Str.join cs).

Section Validation.

(** Django's [URLValidator], which is not part of the repository: [None]
    when it accepts the URL, [Some message] when it raises
    [ValidationError(message)]. *)
Variable URLValidator : string → option string.

Definition validate_url (url : string) : M bool :=
  if negb (Str.startswith_any url ["http://"; "https://"])
  then raise (ValidationError "URL must include http:// or https://")
  else if Str.contains "localhost" (Str.lower url) || Str.contains "127.0.0.1" url
  then raise (ValidationError "Localhost URLs are not allowed")
  else match URLValidator url with
       | Some message => raise (ValidationError message)
       | None => ret true
       end.

End Validation.

(** ** The storage layer: Django's ORM over the default SQLite backend *)

Definition url_taken (url : string) (d : Database) : bool :=
  existsb (λ l, String.eqb (ShortLink.original_url l) url) (links_shortlink d).

Definition code_taken (code : string) (d : Database) : bool :=
  existsb (λ l, String.eqb (ShortLink.short_code l) code) (links_shortlink d).

(** The row that [ShortLink.objects.create] inserts into [d] at time [t]:
    the next id of the sequence, [auto_now_add] and [default=0]. *)
Definition new_link (d : Database) (t : nat) (url code : string) : ShortLink.t :=
  ShortLink.Build (shortlink_seq d) url code t 0.

Definition with_link (d : Database) (link : ShortLink.t) : Database :=
  {| links_shortlink := links_shortlink d ++ [link];
     links_click := links_click d;
     shortlink_seq := S (shortlink_seq d);
     click_seq := click_seq d |}.

(** [ShortLink.objects.create(original_url=..., short_code=...)].  SQLite
    checks the two [unique=True] columns, the index of [short_code] before
    that of [original_url], and reports the first violation in the words
    below; otherwise a row with the next id, the current time and
    [clicks_count = 0] is appended. *)
Definition ShortLink_objects_create (original_url short_code : string)
  : M ShortLink.t := λ w,
  let d := db w in
  if code_taken short_code d
  then (Raise (IntegrityError
                 "UNIQUE constraint failed: links_shortlink.short_code"), w)
  else if url_taken original_url d
  then (Raise (IntegrityError
                 "UNIQUE constraint failed: links_shortlink.original_url"), w)
  else
    let link := new_link d (now w) original_url short_code in
    (Return link, set_db (with_link d link) w).

(** [Meta.ordering = ["-created_at"]]: a stable sort, newest first. *)
Fixpoint insert_newest_first (l : ShortLink.t) (sorted : list ShortLink.t)
  : list ShortLink.t :=
  match sorted with
  | [] => [l]
  | x :: rest =>
      if (ShortLink.created_at x <=? ShortLink.created_at l)%nat
      then l :: sorted
      else x :: insert_newest_first l rest
  end.

Definition order_by_created_at_desc (rows : list ShortLink.t) : list ShortLink.t :=
  foldr insert_newest_first [] rows.

(** [ShortLink.objects.filter(original_url=...).first()] *)
Definition ShortLink_filter_url_first (original_url : string)
  : M (option ShortLink.t) := λ w,
  (Return (head (order_by_created_at_desc
                   (filter (λ l, ShortLink.original_url l = original_url)
                           (links_shortlink (db w))))), w).

(** What [GenericIPAddressField] writes to the database for [value].
    [get_prep_value] replaces a text with a colon by the form Django's
    [clean_ipv6_address] gives it, and keeps the text when that function
    raises [ValidationError] (here: [None]); then
    [adapt_ipaddressfield_value] is [value or None], so the empty string
    is written as [NULL]. *)
Definition GenericIPAddressField_db_value
    (clean_ipv6_address : string → option string) (value : option string)
  : option string :=
  match value with
  | None => None
  | Some text =>
      let prepared :=
        if Str.contains ":" text
        then default text (clean_ipv6_address text)
        else text in
      match prepared with
      | EmptyString => None
      | _ => Some prepared
      end
  end.

(** The row that is written for the model instance [click]: only
    [ip_address] changes on its way to the database. *)
Definition stored_click (clean_ipv6_address : string → option string)
    (click : Click.t) : Click.t :=
  Click.Build (Click.id click) (Click.short_link click)
              (Click.clicked_at click) (Click.query_params click)
              (Click.user_agent click) (Click.referrer click)
              (GenericIPAddressField_db_value clean_ipv6_address
                 (Click.ip_address click)).

(** [Click.objects.create(short_link=..., ...)]: the instance that is
    returned carries the values it was given, the row that is appended
    their database form.  The foreign key is [DEFERRABLE INITIALLY
    DEFERRED], so the reference is checked when the transaction commits. *)
Definition Click_objects_create (clean_ipv6_address : string → option string)
    (short_link : ShortLink.t)
    (query_params : option (gmap string string))
    (user_agent referrer ip_address : option string) : M Click.t := λ w,
  let d := db w in
  let click := Click.Build (click_seq d) (ShortLink.id short_link) (now w)
                           query_params user_agent referrer ip_address in
  (Return click,
   set_db {| links_shortlink := links_shortlink d;
             links_click :=
               links_click d ++ [stored_click clean_ipv6_address click];
             shortlink_seq := shortlink_seq d;
             click_seq := S (click_seq d) |} w).

Definition increment_clicks (l : ShortLink.t) : ShortLink.t :=
  ShortLink.Build (ShortLink.id l) (ShortLink.original_url l)
                  (ShortLink.short_code l) (ShortLink.created_at l)
                  (S (ShortLink.clicks_count l)).

(** [ShortLink.objects.filter(pk=pk).update(clicks_count=F("clicks_count") + 1)]:
    one [UPDATE] statement, evaluated on the stored rows. *)
Definition ShortLink_filter_pk_update_increment (pk : nat) : M nat := λ w,
  let d := db w in
  (Return (length (filter (λ l, ShortLink.id l = pk) (links_shortlink d))),
   set_db {| links_shortlink :=
               map (λ l, if decide (ShortLink.id l = pk)
                         then increment_clicks l else l) (links_shortlink d);
             links_click := links_click d;
             shortlink_seq := shortlink_seq d;
             click_seq := click_seq d |} w).

(** The click rows appended since the snapshot [old] whose link is missing
    from [links_shortlink d]: the deferred foreign-key check. *)
Definition dangling_clicks (old d : Database) : list Click.t :=
  filter (λ c, Click.short_link c ∉ map ShortLink.id (links_shortlink d))
         (drop (length (links_click old)) (links_click d)).

(** [with transaction.atomic(): block].  Leaving the block commits; an
    exception inside it, or a deferred constraint that fails at commit,
    rolls the database back to where the block started and is raised. *)
Definition atomic {A} (block : M A) : M A := λ w,
  match block w with
  | (Return a, w') =>
      match dangling_clicks (db w) (db w') with
      | [] => (Return a, w')
      | _ :: _ =>
          (Raise (IntegrityError "FOREIGN KEY constraint failed"),
           set_db (db w) w')
      end
  | (Raise e, w') => (Raise e, set_db (db w) w')
  end.

(** [ShortLink.objects.get(short_code=...)] under [get_object_or_404]. *)
Definition get_object_or_404 (short_code : string) : M ShortLink.t := λ w,
  match filter (λ l, ShortLink.short_code l = short_code)
               (links_shortlink (db w)) with
  | [] => (Raise Http404, w)
  | [l] => (Return l, w)
  | _ :: _ :: _ => (Raise (OtherException "MultipleObjectsReturned"), w)
  end.

(** ** Requests *)

(** [request.GET], a [QueryDict], as the key/value pairs of the query
    string in the order they were parsed; a key may occur more than once. *)
Definition QueryDict : Type := list (string * string).

(** [request.GET] is a lazy property: reading it parses the query string,
    and Django raises there (for instance [TooManyFieldsSent]).
    [request.META] maps header names to their values. *)
Record HttpRequest : Type := {
  GET : Outcome QueryDict;
  META : gmap string string
}.

(** [dict(query.items())]: [items] yields every key with its last value. *)
Definition dict_of_items (query : QueryDict) : gmap string string :=
  foldl (λ d kv, <[kv.1 := kv.2]> d) ∅ query.

Inductive HttpResponse : Type :=
| HttpResponseRedirect (url : string).

(** The [metadata] dict of [_extract_metadata].  [metadata.get(key)] is
    [None] both for a missing key and for a key bound to [None], so every
    key is an optional field. *)
Module Metadata.
Record t : Type := Build {
  query_params : option (gmap string string);
  user_agent : option string;
  referrer : option string;
  ip_address : option string
}.
End Metadata.

(** [xs[0]] *)
Definition getitem0 {A} (xs : list A) : M A :=
  match xs with
  | [] => raise IndexError
  | x :: _ => ret x
  end.

(** ** [links/services.py] *)

Definition max_retries : nat := 10.

Section LinkShortenerService.

Variable URLValidator : string → option string.

(** Requests are served concurrently.  [others attempt] is what the other
    requests have committed between this request's previous statement and
    the insertion of attempt number [attempt]. *)
Variable others : nat → Database → Database.

Definition concurrent_commits (attempt : nat) : M unit := λ w,
  (Return tt, set_db (others attempt (db w)) w).

(** One turn of the [for attempt in range(max_retries)] loop; [continue]
    is the rest of the loop. *)
Definition attempt_once (original_url : string) (attempt : nat)
    (continue : M ShortLink.t) : M ShortLink.t :=
  let* short_code := generate_short_code 6 in
  concurrent_commits attempt >>
  try_except
    (atomic
       (let* link := ShortLink_objects_create original_url short_code in
        logger INFO (CreatedNew short_code (Str.take 50 original_url)) >>
        ret link))
    (λ e, match e with
          | IntegrityError message =>
              Some (if Str.contains "short_code" message
                    then logger WARNING (CodeCollision (attempt + 1) short_code) >>
                         continue
                    else raise e)
          | _ => None
          end).

Fixpoint retry_loop (original_url : string) (attempts : list nat)
  : M ShortLink.t :=
  match attempts with
  | [] => raise (RuntimeError
                   "Failed to generate unique short code after 10 attempts")
  | attempt :: rest =>
      attempt_once original_url attempt (retry_loop original_url rest)
  end.

Definition create_link (original_url : string) : M ShortLink.t :=
  try_except
    (validate_url URLValidator original_url >>
     let* existing_link := ShortLink_filter_url_first original_url in
     match existing_link with
     | Some link =>
         logger INFO (ReturningExisting (ShortLink.short_code link)
                                        (Str.take 50 original_url)) >>
         ret link
     | None => retry_loop original_url (seq 0 max_retries)
     end)
    (λ e, match e with
          | ValidationError _ =>
              Some (logger ERROR (UrlValidationFailed original_url e) >> raise e)
          | _ => Some (logger ERROR (UnexpectedCreateError e) >> raise e)
          end).

End LinkShortenerService.

Definition _extract_metadata (request : HttpRequest) : M Metadata.t :=
  let* query := (λ w, (GET request, w)) in
  let query_params :=
    match query with
    | [] => None
    | _ :: _ => Some (dict_of_items query)
    end in
  let user_agent := META request !! "HTTP_USER_AGENT" in
  let referrer := META request !! "HTTP_REFERER" in
  let x_forwarded_for := META request !! "HTTP_X_FORWARDED_FOR" in
  let* ip_address :=
    match x_forwarded_for with
    | Some (String c rest) =>
        let* first := getitem0 (Str.split "," (String c rest)) in
        ret (Some (Str.strip first))
    | _ => ret (META request !! "REMOTE_ADDR")
    end in
  ret (Metadata.Build query_params user_agent referrer ip_address).

(** [clean_ipv6_address] is Django's, behind the [ip_address] field. *)
Definition record_click (clean_ipv6_address : string → option string)
    (short_link : ShortLink.t) (request : HttpRequest)
  : M (option Click.t) :=
  try_except
    (let* metadata := _extract_metadata request in
     atomic
       (let* click := Click_objects_create clean_ipv6_address short_link
                        (Metadata.query_params metadata)
                        (Metadata.user_agent metadata)
                        (Metadata.referrer metadata)
                        (Metadata.ip_address metadata) in
        ShortLink_filter_pk_update_increment (ShortLink.id short_link) >>
        logger INFO (RecordedClick (ShortLink.short_code short_link)
                                   (Metadata.ip_address metadata)) >>
        ret (Some click)))
    (λ e, Some (logger ERROR (RecordClickFailed
                                (ShortLink.short_code short_link) e) >>
                ret None)).

(** ** [links/views.py]: the redirect *)

(** [redirect] is Django's [redirect(to, permanent=False)], which is not
    part of the repository: the response it builds for what [resolve_url]
    makes of [to], whose [Location] is the [iri_to_uri] of that, or the
    exception it raises ([DisallowedRedirect] for a scheme other than
    http, https and ftp, [NoReverseMatch] for a text without slash and dot
    that names no URL pattern). *)
Definition RedirectView_get (clean_ipv6_address : string → option string)
    (redirect : string → Outcome HttpResponse)
    (request : HttpRequest) (short_code : string) : M HttpResponse :=
  let* short_link := get_object_or_404 short_code in
  try_except
    (record_click clean_ipv6_address short_link request >> ret tt)
    (λ e, Some (logger ERROR (ClickTrackingFailed short_code e))) >>
  (λ w, (redirect (ShortLink.original_url short_link), w)).

(** ** Vocabulary of the statements *)

(** The world after [n] more values of the random source were consumed. *)
Definition advance (n : nat) (w : World) : World :=
  {| db := db w; now := now w; urandom := urandom w; drawn := drawn w + n;
     log := log w |}.

(** The world with one more log record. *)
Definition logged (lvl : Level) (ev : LogEvent) (w : World) : World :=
  (logger lvl ev w).2.

(** The character [secrets.choice(alphabet)] picks when the random source
    [u] is read at position [p]. *)
Definition pick (u : nat → nat) (p : nat) : ascii :=
  default "a"%char (Str.index alphabet (u p mod String.length alphabet)).

(** The six-character code read off the random source from position [p]. *)
Definition code_from (u : nat → nat) (p : nat) : string :=
  Str.join (map (pick u) (seq p 6)).

(** What the other requests committed before the insertions of attempts
    [a], [a + 1], ..., [a + n - 1], applied to [d] in that order. *)
Fixpoint commits_upto (others : nat → Database → Database) (a n : nat)
    (d : Database) : Database :=
  match n with
  | 0 => d
  | S n' => commits_upto others (S a) n' (others a d)
  end.

(** The log record of the [except] clause that an exception leaves
    [create_link] through. *)
Definition except_record (url : string) (e : Exn) : LogEvent :=
  match e with
  | ValidationError _ => UrlValidationFailed url e
  | _ => UnexpectedCreateError e
  end.

(** Attempt number [a + k] of a request that starts its retry loop in world
    [w] at attempt [a] draws a short code that is taken when it inserts. *)
Definition collides (others : nat → Database → Database)
    (a : nat) (w : World) (k : nat) : Prop :=
  code_taken (code_from (urandom w) (drawn w + 6 * k))
             (commits_upto others a (S k) (db w)) = true.

(** Every link's counter equals the number of click rows that refer to it. *)
Definition counts_consistent (d : Database) : Prop :=
  Forall (λ l, ShortLink.clicks_count l =
               length (filter (λ c, Click.short_link c = ShortLink.id l)
                              (links_click d)))
         (links_shortlink d).

(** The [Click] instance that [record_click] creates for [metadata]. *)
Definition new_click (d : Database) (t : nat) (short_link : ShortLink.t)
    (metadata : Metadata.t) : Click.t :=
  Click.Build (click_seq d) (ShortLink.id short_link) t
              (Metadata.query_params metadata) (Metadata.user_agent metadata)
              (Metadata.referrer metadata) (Metadata.ip_address metadata).

(** The database after a click on the link with primary key [pk] was
    recorded: the row [click] appended, the counters of that link one
    higher. *)
Definition with_click (d : Database) (pk : nat) (click : Click.t) : Database :=
  {| links_shortlink :=
       map (λ l, if decide (ShortLink.id l = pk) then increment_clicks l else l)
           (links_shortlink d);
     links_click := links_click d ++ [click];
     shortlink_seq := shortlink_seq d;
     click_seq := S (click_seq d) |}.

(** [r] is the first comma-separated entry of [header] without its
    surrounding whitespace: [header] reads [lead r trail rest] where [lead]
    and [trail] are whitespace, no comma occurs before [rest], [rest] is
    empty or starts at the first comma, and [r] neither starts nor ends
    with whitespace. *)
Definition first_entry_trimmed (header r : string) : Prop :=
  ∃ lead trail rest,
    header = lead +:+ r +:+ trail +:+ rest
    ∧ Str.all_space lead ∧ Str.all_space trail
    ∧ (("," : ascii) ∉ Str.chars (lead +:+ r +:+ trail))
    ∧ (rest = "" ∨ ∃ rest', rest = String "," rest')
    ∧ (∀ c r', r = String c r' → Str.isspace c = false)
    ∧ (∀ c r', r = r' +:+ String c "" → Str.isspace c = false).

(** The specification's reading of the client address rule: the header
    counts as soon as it is present. *)
Definition spec_ip_address (request : HttpRequest) : option string :=
  match META request !! "HTTP_X_FORWARDED_FOR" with
  | Some header => Some (Str.strip (hd "" (Str.split "," header)))
  | None => META request !! "REMOTE_ADDR"
  end.

(** [v] is the value of the last pair of [query] whose key is [k]. *)
Definition last_value (query : QueryDict) (k v : string) : Prop :=
  ∃ before after : QueryDict,
    query = (before ++ (k, v) :: after)%list ∧ k ∉ after.*1.

(** The scheme of a URL: what precedes its first colon. *)
Fixpoint scheme (url : string) : string :=
  match url with
  | EmptyString => EmptyString
  | String c rest => if Ascii.eqb c ":" then EmptyString
                     else String c (scheme rest)
  end.

Definition uses_http_scheme (url : string) : Prop :=
  scheme url = "http" ∨ scheme url = "https".

(** Some part [host] of the URL contains [localhost], in any case of its
    letters, or [127.0.0.1]. *)
Definition targets_localhost (url : string) : Prop :=
  ∃ pre host post,
    url = pre +:+ host +:+ post
    ∧ (Str.contains "localhost" (Str.lower host) = true
       ∨ Str.contains "127.0.0.1" host = true).

(** ** Sample worlds and requests *)

Definition empty_db : Database :=
  {| links_shortlink := []; links_click := [];
     shortlink_seq := 1; click_seq := 1 |}.

Definition fresh_world : World :=
  {| db := empty_db; now := 100; urandom := λ n, n * 7 + 3; drawn := 0;
     log := [] |}.

Definition accept_all : string → option string := λ _, None.

Definition nobody : nat → Database → Database := λ _ d, d.

Definition sample_url : string := "https://example.com/a".

(** Another request commits a row for [sample_url] just before the first
    insertion of attempt 0. *)
Definition racing_writer : nat → Database → Database := λ attempt d,
  match attempt with
  | 0 => with_link d (new_link d 99 sample_url "zzzzzz")
  | _ => d
  end.

Definition sample_link : ShortLink.t :=
  new_link empty_db 100 sample_url "dkryFM".

(** [fresh_world] after [sample_url] was shortened. *)
Definition linked_world : World :=
  set_db (with_link empty_db sample_link) (advance 6 fresh_world).

(** A click through a proxy chain, with a repeated query key. *)
Definition proxied_request : HttpRequest :=
  {| GET := Return [("utm_source", "x"); ("a", "1"); ("a", "2")];
     META := {[ "HTTP_X_FORWARDED_FOR" := " 203.0.113.7 , 10.0.0.1";
                "REMOTE_ADDR" := "10.0.0.1";
                "HTTP_REFERER" := "https://ref.example" ]} |}.

(** The row [record_click] writes for [proxied_request] in [linked_world]. *)
Definition proxied_click : Click.t :=
  Click.Build 1 1 100
              (Some (dict_of_items [("utm_source", "x"); ("a", "1"); ("a", "2")]))
              None (Some "https://ref.example") (Some "203.0.113.7").

(** A click whose forwarded-for header is present and empty. *)
Definition empty_forwarded_request : HttpRequest :=
  {| GET := Return [];
     META := {[ "HTTP_X_FORWARDED_FOR" := "";
                "REMOTE_ADDR" := "203.0.113.7" ]} |}.

(** A click whose query string Django refuses to parse. *)
Definition unparsable_request : HttpRequest :=
  {| GET := Raise (OtherException "TooManyFieldsSent");
     META := {[ "REMOTE_ADDR" := "203.0.113.7" ]} |}.

(** A table that already holds the first ten codes [fresh_world] draws. *)
Definition crowded_world : World :=
  {| db := {| links_shortlink :=
                map (λ k, let code := code_from (urandom fresh_world) (6 * k) in
                          ShortLink.Build (S k) ("https://taken.example/" +:+ code)
                                          code 50 0)
                    (seq 0 max_retries);
              links_click := [];
              shortlink_seq := 11; click_seq := 1 |};
     now := 100; urandom := urandom fresh_world; drawn := 0; log := [] |}.


(** * The rest of the application *)

(** ** [links/models.py]: [ShortLink.clean] *)

(** [if self.original_url:] skips the empty string; the localhost test
    reads the URL as it is, without [lower()]. *)
Definition ShortLink_clean (self : ShortLink.t) : M unit :=
  match ShortLink.original_url self with
  | EmptyString => ret tt
  | original_url =>
      if negb (Str.startswith_any original_url ["http://"; "https://"])
      then raise (ValidationError "URL must include http:// or https://")
      else if Str.contains "localhost" original_url
              || Str.contains "127.0.0.1" original_url
      then raise (ValidationError "Localhost URLs are not allowed")
      else ret tt
  end.

(** ** [links/admin.py] *)

(** [obj.original_url[:60] + "..." if len(obj.original_url) > 60 else
    obj.original_url] *)
Definition original_url_truncated (obj : ShortLink.t) : string :=
  if 60 <? String.length (ShortLink.original_url obj)
  then Str.take 60 (ShortLink.original_url obj) +:+ "..."
  else ShortLink.original_url obj.

Definition referrer_truncated (obj : Click.t) : string :=
  match Click.referrer obj with
  | Some (String c rest) =>
      let referrer := String c rest in
      if 50 <? String.length referrer
      then Str.take 50 referrer +:+ "..."
      else referrer
  | _ => EmptyString
  end.

(** ** [links/views.py]: creating a link *)

(** [QueryDict.get(key, default)]: the last value given for [key]. *)
Definition QueryDict_get (query : QueryDict) (key fallback : string) : string :=
  default fallback (dict_of_items query !! key).

(** What a template receives in its context. *)
Inductive ContextValue : Type :=
| CtxShortLink (link : ShortLink.t)
| CtxStr (s : string)
| CtxBool (b : bool).

(** [render(request, template_name, context)], with what the view has
    handed to [messages.error] and to its own [logger.error] on the way. *)
Record TemplateResponse : Type := {
  error_messages : list string;
  logged_errors : list Exn;
  template_name : string;
  context : gmap string ContextValue
}.

(** The request of a form submission: [request.POST], which like
    [request.GET] is parsed when it is read, and Django's
    [request.build_absolute_uri], which goes by the scheme and the host of
    the request.  [CommonMiddleware] has asked for the host of the request
    before the view runs, so a host that is not allowed never gets here. *)
Record PostRequest : Type := {
  POST : Outcome QueryDict;
  build_absolute_uri : string → string
}.

Section CreateLinkView.

Variable URLValidator : string → option string.
Variable others : nat → Database → Database.

(** Python's [repr] of a [str], which is not part of the repository. *)
Variable repr : string → string.

(** [str(e)] of a [ValidationError] with one message: the [repr] of the
    list of its messages. *)
Definition ValidationError_str (message : string) : string :=
  "[" +:+ repr message +:+ "]".

(** [CreateLinkView.post] *)
Definition CreateLinkView_post (request : PostRequest) : M TemplateResponse :=
  let* post := (λ w, (POST request, w)) in
  let original_url := Str.strip (QueryDict_get post "original_url" "") in
  match original_url with
  | EmptyString =>
      ret {| error_messages := ["Please enter a URL to shorten."];
             logged_errors := [];
             template_name := "links/create.html";
             context := ∅ |}
  | _ =>
      try_except
        (let* short_link := create_link URLValidator others original_url in
         let short_url :=
           build_absolute_uri request
             ("/" +:+ ShortLink.short_code short_link) in
         ret {| error_messages := [];
                logged_errors := [];
                template_name := "links/create.html";
                context := {[ "short_link" := CtxShortLink short_link;
                              "short_url" := CtxStr short_url;
                              "success" := CtxBool true ]} |})
        (λ e, match e with
              | ValidationError message =>
                  Some (ret {| error_messages := [ValidationError_str message];
                               logged_errors := [];
                               template_name := "links/create.html";
                               context := {[ "original_url" :=
                                               CtxStr original_url ]} |})
              | _ =>
                  Some (ret {| error_messages :=
                                 ["An error occurred. Please try again."];
                               logged_errors := [e];
                               template_name := "links/create.html";
                               context := {[ "original_url" :=
                                               CtxStr original_url ]} |})
              end)
  end.

End CreateLinkView.

(** ** [links/views.py]: deleting a link *)

(** [instance.delete()] on a [ShortLink]: [Click.short_link] is declared
    [on_delete=models.CASCADE], so the clicks of the link go with it. *)
Definition ShortLink_delete (pk : nat) : M unit := λ w,
  let d := db w in
  (Return tt,
   set_db {| links_shortlink :=
               filter (λ l, ShortLink.id l ≠ pk) (links_shortlink d);
             links_click :=
               filter (λ c, Click.short_link c ≠ pk) (links_click d);
             shortlink_seq := shortlink_seq d;
             click_seq := click_seq d |} w).

(** [self.get_object()]: the link with primary key [pk], or [Http404]. *)
Definition get_object (pk : nat) : M ShortLink.t := λ w,
  match filter (λ l, ShortLink.id l = pk) (links_shortlink (db w)) with
  | [] => (Raise Http404, w)
  | [l] => (Return l, w)
  | _ :: _ :: _ => (Raise (OtherException "MultipleObjectsReturned"), w)
  end.

(** The redirect of [DeleteLinkView.delete], with the short code it has
    logged and the message it has handed to [messages.success]. *)
Record DeleteResponse : Type := {
  logged_deleting : string;
  success_message : string;
  response : HttpResponse
}.

(** [DeleteLinkView.delete]; [success_url] is [reverse_lazy("links:list")].
    [super().delete] fetches the object again, deletes it and redirects. *)
Definition DeleteLinkView_delete (success_url : string) (pk : nat)
  : M DeleteResponse :=
  let* short_link := get_object pk in
  let code := ShortLink.short_code short_link in
  let* object := get_object pk in
  ShortLink_delete (ShortLink.id object) >>
  ret {| logged_deleting := code;
         success_message := "Short link '" +:+ code +:+ "' deleted successfully.";
         response := HttpResponseRedirect success_url |}.

(** ** [links/views.py]: listing links *)

(** SQLite's [LIKE], behind [icontains], folds the case of the ASCII
    letters only; Django escapes the wildcards of the pattern. *)
Definition like_fold_char (c : ascii) : ascii :=
  let n := nat_of_ascii c in
  if (65 <=? n) && (n <=? 90) then ascii_of_nat (n + 32) else c.

Fixpoint like_fold (s : string) : string :=
  match s with
  | EmptyString => EmptyString
  | String c s' => String (like_fold_char c) (like_fold s')
  end.

(** [column__icontains=pattern] *)
Definition icontains (column pattern : string) : bool :=
  Str.contains (like_fold pattern) (like_fold column).

(** [ORDER BY]: a stable sort, [before l x] telling that [l] may stand
    before [x]; rows that compare equal stay in storage order. *)
Fixpoint insert_by (before : ShortLink.t → ShortLink.t → bool)
    (l : ShortLink.t) (sorted : list ShortLink.t) : list ShortLink.t :=
  match sorted with
  | [] => [l]
  | x :: rest =>
      if before l x then l :: sorted else x :: insert_by before l rest
  end.

Definition order_by (before : ShortLink.t → ShortLink.t → bool)
    (rows : list ShortLink.t) : list ShortLink.t :=
  foldr (insert_by before) [] rows.

(** [sort in ["-created_at", "created_at", "-clicks_count",
    "clicks_count"]], with the comparison each of them asks for. *)
Definition requested_order (sort : string)
  : option (ShortLink.t → ShortLink.t → bool) :=
  if decide (sort = "-created_at")
  then Some (λ l x, ShortLink.created_at x <=? ShortLink.created_at l)
  else if decide (sort = "created_at")
  then Some (λ l x, ShortLink.created_at l <=? ShortLink.created_at x)
  else if decide (sort = "-clicks_count")
  then Some (λ l x, ShortLink.clicks_count x <=? ShortLink.clicks_count l)
  else if decide (sort = "clicks_count")
  then Some (λ l x, ShortLink.clicks_count l <=? ShortLink.clicks_count x)
  else None.

Section LinkListView.

(** Django's conversion of a lookup value to the datetime it compares
    [created_at] with; it raises [ValidationError] on a value it cannot
    read. *)
Variable to_datetime : string → Outcome nat.

(** [if value: queryset = queryset.filter(created_at__gte=value)] and its
    mirror image, as the test a row has to pass. *)
Definition date_filter (value : option string)
    (keeps : nat → nat → bool) : M (ShortLink.t → bool) :=
  match value with
  | Some (String c rest) =>
      let* bound := (λ w, (to_datetime (String c rest), w)) in
      ret (λ l, keeps bound (ShortLink.created_at l))
  | _ => ret (λ _, true)
  end.

(** [LinkListView.get_queryset], evaluated on the stored rows. *)
Definition LinkListView_get_queryset (request : HttpRequest)
  : M (list ShortLink.t) :=
  let* query := (λ w, (GET request, w)) in
  let search := Str.strip (QueryDict_get query "search" "") in
  let date_from := dict_of_items query !! "date_from" in
  let date_to := dict_of_items query !! "date_to" in
  let sort := QueryDict_get query "sort" "-created_at" in
  let by_search : ShortLink.t → bool :=
    match search with
    | EmptyString => λ _, true
    | _ => λ l, icontains (ShortLink.original_url l) search
                || icontains (ShortLink.short_code l) search
    end in
  let* by_date_from := date_filter date_from (λ bound t, bound <=? t) in
  let* by_date_to := date_filter date_to (λ bound t, t <=? bound) in
  let* rows := (λ w, (Return (links_shortlink (db w)), w)) in
  let selected :=
    filter (λ l, by_search l && by_date_from l && by_date_to l = true) rows in
  ret match requested_order sort with
      | Some before => order_by before selected
      | None => order_by_created_at_desc selected
      end.

End LinkListView.

(** ** Vocabulary of the further statements *)

(** The unique constraints of [ShortLink]. *)
Definition unique_links (d : Database) : Prop :=
  NoDup (map ShortLink.original_url (links_shortlink d))
  ∧ NoDup (map ShortLink.short_code (links_shortlink d)).

(** What a link is, apart from its counter. *)
Definition link_identity (l : ShortLink.t) : nat * string * string * nat :=
  (ShortLink.id l, ShortLink.original_url l, ShortLink.short_code l,
   ShortLink.created_at l).

(** [record_click] for one request after the other. *)
Fixpoint record_clicks (clean_ipv6_address : string → option string)
    (short_link : ShortLink.t) (requests : list HttpRequest)
  : M (list (option Click.t)) :=
  match requests with
  | [] => ret []
  | request :: rest =>
      let* click := record_click clean_ipv6_address short_link request in
      let* clicks := record_clicks clean_ipv6_address short_link rest in
      ret (click :: clicks)
  end.

Definition add_clicks (n : nat) (l : ShortLink.t) : ShortLink.t :=
  ShortLink.Build (ShortLink.id l) (ShortLink.original_url l)
                  (ShortLink.short_code l) (ShortLink.created_at l)
                  (n + ShortLink.clicks_count l).

(** A request whose query string Django can parse. *)
Definition parses (request : HttpRequest) : Prop :=
  ∃ query, GET request = Return query.

(** A stored link that [clean] accepts and [validate_url] refuses. *)
Definition shouting_link : ShortLink.t :=
  ShortLink.Build 7 "http://LOCALHOST/admin" "abc123" 100 0.

(** A form submission of [sample_url] between blanks. *)
Definition padded_submission : QueryDict :=
  [("csrfmiddlewaretoken", "t"); ("original_url", "  https://example.com/a ")].

Definition sample_repr : string → string := λ s, "'" +:+ s +:+ "'".

(** [build_absolute_uri] of a request to [https://sho.rt], and of one to
    the development server, for a location that starts with one slash. *)
Definition sample_build_absolute_uri : string → string := λ location,
  "https://sho.rt" +:+ location.

Definition loopback_build_absolute_uri : string → string := λ location,
  "http://127.0.0.1:8000" +:+ location.

(** [sample_url] between blanks, submitted to [https://sho.rt]. *)
Definition padded_request : PostRequest :=
  {| POST := Return padded_submission;
     build_absolute_uri := sample_build_absolute_uri |}.

(** [sample_url] submitted to the development server. *)
Definition loopback_request : PostRequest :=
  {| POST := Return [("original_url", sample_url)];
     build_absolute_uri := loopback_build_absolute_uri |}.

(** Django's [clean_ipv6_address] on the addresses of the sample
    requests: the compressed lower-case form of [2001:DB8:0:0:0:0:0:1], and
    [ValidationError] for a text that is no IPv6 address. *)
Definition sample_clean_ipv6_address : string → option string := λ text,
  match text with
  | "2001:DB8:0:0:0:0:0:1" => Some "2001:db8::1"
  | _ => None
  end.

(** Django's [redirect] at [sample_url]: the scheme is an allowed one and
    [iri_to_uri] leaves the URL as it is.  The sample requests resolve to
    no other URL, and this stand-in refuses every other one. *)
Definition sample_redirect : string → Outcome HttpResponse := λ to,
  if String.eqb to sample_url then Return (HttpResponseRedirect sample_url)
  else Raise (OtherException "DisallowedRedirect").

(** [linked_world] after [proxied_request] was recorded. *)
Definition clicked_world : World :=
  (record_click sample_clean_ipv6_address sample_link proxied_request
                linked_world).2.

(** A click of an IPv6 client, written in full and in capitals, and a
    click whose forwarded-for header starts with an empty entry. *)
Definition ipv6_request : HttpRequest :=
  {| GET := Return [];
     META := {[ "HTTP_X_FORWARDED_FOR" := "2001:DB8:0:0:0:0:0:1, 10.0.0.1";
                "REMOTE_ADDR" := "10.0.0.1" ]} |}.

Definition empty_entry_request : HttpRequest :=
  {| GET := Return [];
     META := {[ "HTTP_X_FORWARDED_FOR" := " , 10.0.0.1";
                "REMOTE_ADDR" := "10.0.0.1" ]} |}.

(** The datetime that a date parameter of the list asks to compare with:
    none when the parameter is missing or empty. *)
Definition date_bound (to_datetime : string → Outcome nat)
    (value : option string) : option nat :=
  match value with
  | Some (String c rest) =>
      match to_datetime (String c rest) with
      | Return t => Some t
      | Raise _ => None
      end
  | _ => None
  end.

(** The rows that a list request asks for. *)
Definition selected (search : string) (date_from date_to : option nat)
    (l : ShortLink.t) : Prop :=
  (search = ""
   ∨ icontains (ShortLink.original_url l) search = true
   ∨ icontains (ShortLink.short_code l) search = true)
  ∧ (∀ t, date_from = Some t → t ≤ ShortLink.created_at l)
  ∧ (∀ t, date_to = Some t → ShortLink.created_at l ≤ t).

(** The foreign key of [Click]: every click refers to a stored link. *)
Definition clicks_refer_to_links (d : Database) : Prop :=
  Forall (λ c, Click.short_link c ∈ map ShortLink.id (links_shortlink d))
         (links_click d).

(** A referrer longer than the admin list shows. *)
Definition long_referrer_click : Click.t :=
  Click.Build 3 1 100 None None
    (Some "https://ref.example/a/very/long/path/that/goes/on/and/on/and/on")
    None.

(** Django's conversion of the two dates the sample requests name, on a
    clock that stands at 100 in the course of 2 January 2024; a value that
    is no date raises [ValidationError]. *)
Definition sample_to_datetime : string → Outcome nat := λ s,
  match s with
  | "2024-01-02" => Return 50
  | "2024-01-03" => Return 150
  | _ => Raise (ValidationError "invalid date")
  end.

(** Four stored links: two that match [example] and are recent enough, one
    that does not match, one that is too old. *)
Definition listed_first : ShortLink.t :=
  ShortLink.Build 1 "https://example.com/a" "dkryFM" 100 5.
Definition listed_second : ShortLink.t :=
  ShortLink.Build 2 "https://www.EXAMPLE.net/b" "Qx7Lm2" 120 2.
Definition unrelated_link : ShortLink.t :=
  ShortLink.Build 3 "https://unrelated.org/" "abc123" 130 9.
Definition old_link : ShortLink.t :=
  ShortLink.Build 4 "https://example.com/old" "zzz999" 10 1.

Definition listing_world : World :=
  {| db := {| links_shortlink :=
                [listed_first; listed_second; unrelated_link; old_link];
              links_click := [];
              shortlink_seq := 5; click_seq := 1 |};
     now := 140; urandom := urandom fresh_world; drawn := 0; log := [] |}.

(** A list request for the links matching [EXAMPLE] since 2 January 2024,
    fewest clicks first. *)
Definition list_request : HttpRequest :=
  {| GET := Return [("search", " EXAMPLE "); ("sort", "clicks_count");
                    ("date_from", "2024-01-02")];
     META := ∅ |}.

(** * Properties *)

(** ** Strings *)

Lemma startswith_app s p post :
  Str.startswith s p = true → Str.startswith (s +:+ post) p = true.
Proof.
  revert s. induction p as [|a p IH]; intros s H; [done|].
  destruct s as [|b s]; simpl in *; [done|].
  apply andb_true_iff in H as [-> H]. simpl. by apply IH.
Qed.

Lemma startswith_contains s needle :
  Str.startswith s needle = true → Str.contains needle s = true.
Proof. intros H. destruct s; simpl; by rewrite H. Qed.

Lemma contains_app_l needle s post :
  Str.contains needle s = true → Str.contains needle (s +:+ post) = true.
Proof.
  induction s as [|c s IH]; simpl; intros H.
  - rewrite orb_false_r in H.
    apply (startswith_app "" needle post) in H.
    by apply startswith_contains.
  - apply orb_true_iff in H as [H|H].
    + apply (startswith_app (String c s) needle post) in H.
      change (String c s +:+ post) with (String c (s +:+ post)) in H.
      by rewrite H.
    + rewrite (IH H). apply orb_true_r.
Qed.

Lemma contains_app_r needle pre s :
  Str.contains needle s = true → Str.contains needle (pre +:+ s) = true.
Proof.
  intros H. induction pre as [|c pre IH]; simpl; [done|].
  rewrite IH. apply orb_true_r.
Qed.

Lemma contains_middle needle pre mid post :
  Str.contains needle mid = true →
  Str.contains needle (pre +:+ mid +:+ post) = true.
Proof. intros H. by apply contains_app_r, contains_app_l. Qed.

Lemma startswith_refl s : Str.startswith s s = true.
Proof. induction s as [|c s IH]; simpl; [done|]. by rewrite Ascii.eqb_refl. Qed.

Lemma contains_refl s : Str.contains s s = true.
Proof. destruct s; simpl; [done|]. by rewrite Ascii.eqb_refl, startswith_refl. Qed.

Lemma startswith_split s p :
  Str.startswith s p = true → ∃ rest, s = p +:+ rest.
Proof.
  revert s. induction p as [|a p IH]; intros s H; [by exists s|].
  destruct s as [|b s]; simpl in H; [done|].
  apply andb_true_iff in H as [Hab H]. apply Ascii.eqb_eq in Hab as ->.
  destruct (IH _ H) as [rest ->]. by exists rest.
Qed.

(** [needle in hay] holds exactly when [hay] reads [pre needle post]. *)
Lemma contains_iff needle hay :
  Str.contains needle hay = true ↔ ∃ pre post, hay = pre +:+ needle +:+ post.
Proof.
  split.
  - induction hay as [|c hay IH]; simpl; intros H.
    + rewrite orb_false_r in H. apply startswith_split in H as [rest ->].
      by exists "", rest.
    + apply orb_true_iff in H as [H|H].
      * apply (startswith_split (String c hay)) in H as [rest ->].
        by exists "", rest.
      * destruct (IH H) as (pre & post & ->). by exists (String c pre), post.
  - intros (pre & post & ->). apply contains_middle, contains_refl.
Qed.

Lemma lower_app a b : Str.lower (a +:+ b) = Str.lower a +:+ Str.lower b.
Proof. induction a as [|c a IH]; simpl; [done|]. by rewrite IH. Qed.

(** ** [validate_url] *)

Lemma startswith_scheme url p :
  Str.startswith url (p +:+ "://") = true → ":"%char ∉ Str.chars p →
  scheme url = p.
Proof.
  revert url. induction p as [|a p IH]; intros url H Hp.
  - destruct url as [|c url]; [done|].
    change (Ascii.eqb ":" c && Str.startswith url "//" = true) in H.
    apply andb_true_iff in H as [H _]. apply Ascii.eqb_eq in H as <-. done.
  - destruct url as [|c url]; [done|].
    change (Ascii.eqb a c && Str.startswith url (p +:+ "://") = true) in H.
    apply andb_true_iff in H as [Hc H]. apply Ascii.eqb_eq in Hc as <-.
    change (Str.chars (String a p)) with (a :: Str.chars p) in Hp.
    apply not_elem_of_cons in Hp as [Ha Hp].
    cbn [scheme]. destruct (Ascii.eqb_spec a ":") as [->|_]; [done|].
    by rewrite (IH url H Hp).
Qed.

Lemma other_scheme_not_http_prefix url :
  ¬ uses_http_scheme url →
  Str.startswith_any url ["http://"; "https://"] = false.
Proof.
  intros Hs. apply not_true_is_false. intros H. apply Hs.
  unfold Str.startswith_any in H. cbn [existsb] in H.
  rewrite orb_false_r in H. apply orb_true_iff in H as [H|H].
  - left. apply (startswith_scheme url "http" H).
    apply (bool_decide_unpack _). by vm_compute.
  - right. apply (startswith_scheme url "https" H).
    apply (bool_decide_unpack _). by vm_compute.
Qed.

Lemma targets_localhost_detected url :
  targets_localhost url →
  Str.contains "localhost" (Str.lower url) || Str.contains "127.0.0.1" url = true.
Proof.
  intros (pre & host & post & -> & [H|H]); apply orb_true_iff; [left|right].
  - rewrite !lower_app. by apply contains_middle.
  - by apply contains_middle.
Qed.

(** [validate_url] reads nothing of the world and leaves it as it is. *)
Lemma validate_url_pure V url w w' :
  validate_url V url w' = ((validate_url V url w).1, w').
Proof.
  unfold validate_url.
  destruct (negb _); [done|]. destruct (_ || _); [done|]. by destruct (V url).
Qed.

Lemma validate_url_world V url w : (validate_url V url w).2 = w.
Proof. by rewrite (validate_url_pure V url w w). Qed.

Lemma validate_url_localhost V url w :
  targets_localhost url →
  validate_url V url w =
    (Raise (ValidationError
              (if Str.startswith_any url ["http://"; "https://"]
               then "Localhost URLs are not allowed"
               else "URL must include http:// or https://")), w).
Proof.
  intros H%targets_localhost_detected. unfold validate_url.
  destruct (Str.startswith_any _ _); simpl; [|done]. by rewrite H.
Qed.

Lemma validate_url_no_http_prefix V url w :
  Str.startswith_any url ["http://"; "https://"] = false →
  validate_url V url w =
    (Raise (ValidationError "URL must include http:// or https://"), w).
Proof. intros H. unfold validate_url. by rewrite H. Qed.

(** A validation failure leaves [create_link] through its first [except]
    clause: one log record, the exception raised again. *)
Lemma create_link_validation_error V others url message w :
  validate_url V url w = (Raise (ValidationError message), w) →
  create_link V others url w =
    (Raise (ValidationError message),
     (logger ERROR (UrlValidationFailed url (ValidationError message)) w).2).
Proof.
  intros H. unfold create_link, try_except, bind. by rewrite H.
Qed.

(** ** [generate_short_code] *)

Lemma index_alphabet i :
  i < String.length alphabet →
  ∃ c, Str.index alphabet i = Some c ∧ Str.isalnum c = true.
Proof.
  intros Hi.
  assert (Hall : forallb (λ i, match Str.index alphabet i with
                               | Some c => Str.isalnum c
                               | None => false
                               end) (seq 0 (String.length alphabet)) = true)
    by (by vm_compute).
  rewrite forallb_forall in Hall.
  specialize (Hall i). rewrite in_seq in Hall.
  destruct (Str.index alphabet i) as [c|]; [|discriminate Hall; lia].
  exists c. split; [done|]. apply Hall. lia.
Qed.

Lemma pick_isalnum u p : Str.isalnum (pick u p) = true.
Proof.
  unfold pick.
  destruct (index_alphabet (u p mod String.length alphabet)) as (c & -> & Hc);
    [|done].
  apply Nat.mod_upper_bound. by vm_compute.
Qed.

Lemma advance_advance m n w : advance n (advance m w) = advance (m + n) w.
Proof. unfold advance; simpl. f_equal. lia. Qed.

Lemma choice_alphabet w :
  choice alphabet w = (Return (pick (urandom w) (drawn w)), advance 1 w).
Proof.
  unfold pick. change (choice alphabet w) with
    (bind (randbelow (String.length alphabet))
          (λ i, match Str.index alphabet i with
                | Some c => ret c
                | None => raise IndexError
                end) w).
  unfold bind, randbelow.
  destruct (index_alphabet (urandom w (drawn w) mod String.length alphabet))
    as (c & -> & _).
  { apply Nat.mod_upper_bound. by vm_compute. }
  unfold ret, advance; simpl. do 2 f_equal. lia.
Qed.

Lemma for_range_choice n w :
  for_range n (choice alphabet) w =
    (Return (map (pick (urandom w)) (seq (drawn w) n)), advance n w).
Proof.
  revert w. induction n as [|n IH]; intros w.
  - unfold advance; simpl. unfold ret. f_equal. destruct w; simpl.
    f_equal. lia.
  - cbn [for_range]. unfold bind at 1. rewrite choice_alphabet.
    unfold bind at 1. rewrite IH. unfold ret.
    rewrite advance_advance. cbn [advance urandom drawn seq map].
    by rewrite Nat.add_1_r.
Qed.

Lemma generate_short_code_6 w :
  generate_short_code 6 w =
    (Return (code_from (urandom w) (drawn w)), advance 6 w).
Proof.
  unfold generate_short_code, bind. by rewrite for_range_choice.
Qed.

Lemma chars_join cs : Str.chars (Str.join cs) = cs.
Proof. induction cs as [|c cs IH]; simpl; [done|]. by rewrite IH. Qed.

Lemma length_chars s : String.length s = length (Str.chars s).
Proof. induction s as [|c s IH]; simpl; [done|]. by rewrite IH. Qed.

Lemma code_from_shape u p :
  String.length (code_from u p) = 6
  ∧ Forall (λ c, Str.isalnum c = true) (Str.chars (code_from u p)).
Proof.
  unfold code_from. rewrite length_chars, chars_join. split; [done|].
  apply Forall_forall. intros c Hc%list_elem_of_In%in_map_iff.
  destruct Hc as (q & <- & _). apply pick_isalnum.
Qed.

(** ** The retry loop of [create_link] *)

Lemma dangling_clicks_same_clicks old d :
  links_click d = links_click old → dangling_clicks old d = [].
Proof. intros H. unfold dangling_clicks. by rewrite H, drop_all. Qed.

Lemma url_taken_false_filter url d :
  url_taken url d = false →
  filter (λ l, ShortLink.original_url l = url) (links_shortlink d) = [].
Proof.
  unfold url_taken. induction (links_shortlink d) as [|l ls IH]; [done|].
  cbn [existsb]. intros [Hl Hls]%orb_false_iff.
  rewrite filter_cons, decide_False; [by apply IH|].
  intros Heq. rewrite Heq, String.eqb_refl in Hl. done.
Qed.

Lemma order_by_created_at_desc_perm rows :
  order_by_created_at_desc rows ≡ₚ rows.
Proof.
  induction rows as [|l rows IH]; [done|].
  cbn [order_by_created_at_desc foldr].
  fold (order_by_created_at_desc rows). rewrite <- IH at 2.
  generalize (order_by_created_at_desc rows) as sorted. clear.
  induction sorted as [|x rest IH]; [done|]. cbn [insert_newest_first].
  destruct (_ <=? _)%nat; [done|]. rewrite IH. apply perm_swap.
Qed.

Section RetryLoop.

Variable others : nat → Database → Database.
Variable url : string.

(** One attempt, by cases on what the insertion meets: a taken code (the
    loop goes on), a row for the URL (the exception leaves the loop), or
    neither (the new row is returned). *)
Lemma attempt_once_eq a (continue : M ShortLink.t) w :
  let code := code_from (urandom w) (drawn w) in
  let w2 := set_db (others a (db w)) (advance 6 w) in
  attempt_once others url a continue w =
    if code_taken code (db w2)
    then continue (logged WARNING (CodeCollision (a + 1) code) w2)
    else if url_taken url (db w2)
    then (Raise (IntegrityError
                   "UNIQUE constraint failed: links_shortlink.original_url"), w2)
    else let link := new_link (db w2) (now w) url code in
         (Return link,
          logged INFO (CreatedNew code (Str.take 50 url))
                 (set_db (with_link (db w2) link) w2)).
Proof.
  intros code w2. unfold attempt_once. unfold bind at 1.
  rewrite generate_short_code_6. fold code.
  unfold bind at 1, concurrent_commits.
  unfold try_except, atomic, bind, ShortLink_objects_create. subst w2.
  cbv zeta. cbn [db set_db advance].
  destruct (code_taken code (others a (db w))) eqn:Hc; [done|].
  destruct (url_taken url (others a (db w))) eqn:Hu; [done|].
  cbn -[dangling_clicks Str.take]. rewrite dangling_clicks_same_clicks; done.
Qed.

Lemma retry_loop_skip j : ∀ a n w,
  (∀ k, k < j → collides others a w k) →
  ∃ w', retry_loop others url (seq a (j + n)) w
        = retry_loop others url (seq (a + j) n) w'
        ∧ db w' = commits_upto others a j (db w)
        ∧ drawn w' = drawn w + 6 * j
        ∧ urandom w' = urandom w ∧ now w' = now w.
Proof.
  induction j as [|j IH]; intros a n w Hcol.
  - exists w. rewrite Nat.add_0_r, Nat.mul_0_r, Nat.add_0_r. done.
  - cbn [Nat.add seq retry_loop]. rewrite attempt_once_eq.
    pose proof (Hcol 0 ltac:(lia)) as Hc. unfold collides in Hc.
    cbn [commits_upto] in Hc. rewrite Nat.mul_0_r, Nat.add_0_r in Hc.
    cbn [set_db db advance]. rewrite Hc.
    set (w3 := logged _ _ _).
    destruct (IH (S a) n w3) as (w' & Heq & Hdb & Hdr & Hur & Hnow).
    { intros k Hk. pose proof (Hcol (S k) ltac:(lia)) as Hc'.
      unfold collides in *.
      replace (drawn w3 + 6 * k) with (drawn w + 6 * S k)
        by (subst w3; cbn; lia).
      exact Hc'. }
    exists w'. rewrite Heq. replace (a + S j) with (S a + j) by lia.
    split; [done|]. split; [by rewrite Hdb|].
    split; [rewrite Hdr; subst w3; cbn; lia|]. by rewrite Hur, Hnow.
Qed.

(** The loop draws six random values per attempt and makes at most as many
    attempts as it was given. *)
Lemma retry_loop_draws attempts : ∀ w,
  ∃ k, k ≤ length attempts ∧ (attempts ≠ [] → 1 ≤ k)
       ∧ drawn (retry_loop others url attempts w).2 = drawn w + 6 * k.
Proof.
  induction attempts as [|a rest IH]; intros w.
  - exists 0. split; [done|]. split; [done|]. cbn. lia.
  - cbn [retry_loop]. rewrite attempt_once_eq. cbn [set_db db].
    destruct (code_taken _ _).
    + set (w3 := logged _ _ _).
      destruct (IH w3) as (k & Hk & _ & Hd). exists (S k).
      split; [cbn; lia|]. split; [lia|]. rewrite Hd. subst w3; cbn. lia.
    + exists 1. split; [cbn; lia|]. split; [done|].
      destruct (url_taken _ _); cbn; lia.
Qed.

Lemma commits_upto_S n : ∀ a d,
  commits_upto others a (S n) d = others (a + n) (commits_upto others a n d).
Proof.
  induction n as [|n IH]; intros a d.
  - cbn. by rewrite Nat.add_0_r.
  - cbn [commits_upto] in *. rewrite IH. by replace (S a + n) with (a + S n) by lia.
Qed.

(** After [j] collisions the loop stands before attempt [a + j], which
    decides by what its insertion meets. *)
Lemma retry_loop_reach j n a w :
  (∀ k, k < j → collides others a w k) →
  let d := commits_upto others a (S j) (db w) in
  let code := code_from (urandom w) (drawn w + 6 * j) in
  ∃ w', db w' = d ∧ drawn w' = drawn w + 6 * S j
        ∧ urandom w' = urandom w ∧ now w' = now w
        ∧ retry_loop others url (seq a (j + S n)) w =
            if code_taken code d
            then retry_loop others url (seq (S (a + j)) n)
                            (logged WARNING (CodeCollision (a + j + 1) code) w')
            else if url_taken url d
            then (Raise (IntegrityError
                           "UNIQUE constraint failed: links_shortlink.original_url"),
                  w')
            else (Return (new_link d (now w) url code),
                  logged INFO (CreatedNew code (Str.take 50 url))
                         (set_db (with_link d (new_link d (now w) url code)) w')).
Proof.
  intros Hcol d code.
  destruct (retry_loop_skip j a (S n) w Hcol) as (w0 & Heq & Hdb & Hdr & Hur & Hnow).
  exists (set_db d (advance 6 w0)).
  split; [done|]. split; [cbn; lia|]. split; [done|]. split; [done|].
  rewrite Heq. cbn [seq retry_loop]. rewrite attempt_once_eq.
  rewrite Hdb, Hdr, Hur, Hnow, <- commits_upto_S. fold d code. done.
Qed.

(** A link returned by the loop is a row the loop has just appended to a
    table without a row for the URL, under a code read off the random
    source. *)
Lemma retry_loop_return attempts : ∀ w link w',
  retry_loop others url attempts w = (Return link, w') →
  ∃ d p, url_taken url d = false
         ∧ links_shortlink (db w') = links_shortlink d ++ [link]
         ∧ ShortLink.original_url link = url
         ∧ ShortLink.short_code link = code_from (urandom w) p.
Proof.
  induction attempts as [|a rest IH]; intros w link w' H; [done|].
  cbn [retry_loop] in H. rewrite attempt_once_eq in H. cbn [set_db db] in H.
  destruct (code_taken _ _) eqn:Hc.
  - apply IH in H as (d & p & H1 & H2 & H3 & H4). by exists d, p.
  - destruct (url_taken _ _) eqn:Hu; [done|].
    injection H as <- <-. eexists _, _. split; [exact Hu|]. done.
Qed.

End RetryLoop.

(** ** [create_link] *)

Section CreateLink.

Variable URLValidator : string → option string.
Variable others : nat → Database → Database.

(** [create_link] by cases: validation, deduplication, retry loop. *)
Lemma create_link_eq url w :
  create_link URLValidator others url w =
    match (validate_url URLValidator url w).1 with
    | Raise e => (Raise e, logged ERROR (except_record url e) w)
    | Return _ =>
        match head (order_by_created_at_desc
                      (filter (λ l, ShortLink.original_url l = url)
                              (links_shortlink (db w)))) with
        | Some link =>
            (Return link,
             logged INFO (ReturningExisting (ShortLink.short_code link)
                                            (Str.take 50 url)) w)
        | None =>
            match retry_loop others url (seq 0 max_retries) w with
            | (Return link, w') => (Return link, w')
            | (Raise e, w') => (Raise e, logged ERROR (except_record url e) w')
            end
        end
    end.
Proof.
  unfold create_link, try_except. unfold bind at 1.
  rewrite (validate_url_pure URLValidator url w w).
  destruct (validate_url URLValidator url w).1 as [b|e]; cbn [fst].
  - unfold bind at 1, ShortLink_filter_url_first.
    destruct (head _) as [link|]; [done|].
    destruct (retry_loop _ _ _ _) as [[link|e] w']; [done|]. by destruct e.
  - by destruct e.
Qed.

Lemma create_link_existing url w link :
  (validate_url URLValidator url w).1 = Return true →
  head (order_by_created_at_desc
          (filter (λ l, ShortLink.original_url l = url)
                  (links_shortlink (db w)))) = Some link →
  create_link URLValidator others url w =
    (Return link,
     logged INFO (ReturningExisting (ShortLink.short_code link)
                                    (Str.take 50 url)) w).
Proof. intros Hv Hh. by rewrite create_link_eq, Hv, Hh. Qed.

Lemma validate_url_returns_true url w b :
  (validate_url URLValidator url w).1 = Return b → b = true.
Proof.
  unfold validate_url. destruct (negb _); [done|]. destruct (_ || _); [done|].
  destruct (URLValidator url); [done|]. cbn. congruence.
Qed.

End CreateLink.



(** C3.  A URL whose scheme is neither [http] nor [https], or that does not
    start with [http://] or [https://], or of which some part (its host,
    say) contains [localhost] in any case or [127.0.0.1], makes
    [create_link] raise [ValidationError] with one of the two messages of
    [validate_url]; the database is untouched and no code is generated. *)
Theorem create_link_rejects_invalid_url V others url w :
  ¬ uses_http_scheme url
  ∨ Str.startswith_any url ["http://"; "https://"] = false
  ∨ targets_localhost url →
  ∃ message w',
    create_link V others url w = (Raise (ValidationError message), w')
    ∧ (message = "URL must include http:// or https://"
       ∨ message = "Localhost URLs are not allowed")
    ∧ db w' = db w ∧ drawn w' = drawn w.
Proof.
  intros H.
  assert (Hv : ∃ message,
             validate_url V url w = (Raise (ValidationError message), w)
             ∧ (message = "URL must include http:// or https://"
                ∨ message = "Localhost URLs are not allowed")).
  { destruct H as [H%other_scheme_not_http_prefix|[H|H]].
    - eexists. split; [by apply validate_url_no_http_prefix|by left].
    - eexists. split; [by apply validate_url_no_http_prefix|by left].
    - eexists. split; [by apply validate_url_localhost|].
      destruct (Str.startswith_any _ _); [by right|by left]. }
  destruct Hv as (message & Hv & Hm). exists message.
  eexists. split; [by apply create_link_validation_error|]. done.
Qed.

Lemma create_link_rejects_invalid_url_witness :
  (∃ message w',
     create_link accept_all nobody "ftp://example.com" fresh_world
     = (Raise (ValidationError message), w') ∧ db w' = db fresh_world)
  ∧ (∃ message w',
       create_link accept_all nobody "http://localhost/x" fresh_world
       = (Raise (ValidationError message), w') ∧ db w' = db fresh_world).
Proof.
  split.
  - destruct (create_link_rejects_invalid_url accept_all nobody
                "ftp://example.com" fresh_world)
      as (message & w' & H & _ & Hdb & _).
    + right; left. by vm_compute.
    + by exists message, w'.
  - destruct (create_link_rejects_invalid_url accept_all nobody
                "http://localhost/x" fresh_world)
      as (message & w' & H & _ & Hdb & _).
    + right; right. exists "http://", "localhost", "/x". split; [done|].
      left. by vm_compute.
    + by exists message, w'.
Defined.

(** C10.  The localhost check of [validate_url] reads the whole URL: as
    soon as [localhost], in any case of its letters, or [127.0.0.1] occurs
    anywhere in it, path, query and fragment included, [validate_url]
    raises [ValidationError]; so [create_link] rejects
    [https://example.com/localhost], whose host is [example.com]. *)
Theorem validate_url_rejects_localhost_anywhere V url before occurrence after w :
  url = before +:+ occurrence +:+ after →
  Str.lower occurrence = "localhost" ∨ occurrence = "127.0.0.1" →
  validate_url V url w =
    (Raise (ValidationError
              (if Str.startswith_any url ["http://"; "https://"]
               then "Localhost URLs are not allowed"
               else "URL must include http:// or https://")), w)
  ∧ ∀ others, ∃ w',
      create_link V others "https://example.com/localhost" w =
        (Raise (ValidationError "Localhost URLs are not allowed"), w')
      ∧ db w' = db w.
Proof.
  intros Hurl Hocc. split.
  - apply validate_url_localhost. exists before, occurrence, after.
    split; [done|]. destruct Hocc as [->| ->]; [by left|by right].
  - intros others. eexists. split; [apply create_link_validation_error|done].
    by rewrite (validate_url_localhost V "https://example.com/localhost" w)
      by (exists "https://example.com/", "localhost", ""; split; [done|by left]).
Qed.

Lemma validate_url_rejects_localhost_anywhere_witness :
  validate_url accept_all "https://example.com/LocalHost?x=1" fresh_world =
    (Raise (ValidationError "Localhost URLs are not allowed"), fresh_world).
Proof.
  apply (validate_url_rejects_localhost_anywhere accept_all
           "https://example.com/LocalHost?x=1"
           "https://example.com/" "LocalHost" "?x=1" fresh_world).
  - done.
  - left. by vm_compute.
Defined.

(** C7.  [generate_short_code(length=6)] always returns, and what it
    returns has six characters, all of them in [a-zA-Z0-9]; the link that
    [create_link] returns is either a row that was already stored or
    carries such a code. *)
Theorem generated_short_code_shape :
  (∀ w, ∃ code w',
     generate_short_code 6 w = (Return code, w')
     ∧ String.length code = 6
     ∧ Forall (λ c, Str.isalnum c = true) (Str.chars code))
  ∧ (∀ V others url w link w',
       create_link V others url w = (Return link, w') →
       link ∈ links_shortlink (db w)
       ∨ (link ∈ links_shortlink (db w')
          ∧ String.length (ShortLink.short_code link) = 6
          ∧ Forall (λ c, Str.isalnum c = true)
                   (Str.chars (ShortLink.short_code link)))).
Proof.
  split.
  - intros w. eexists _, _. split; [apply generate_short_code_6|].
    apply code_from_shape.
  - intros V others url w link w' H. rewrite create_link_eq in H.
    destruct (validate_url V url w).1 as [b|e]; [|done].
    destruct (head _) as [link0|] eqn:Hh.
    + injection H as <- <-. left.
      apply head_Some_elem_of in Hh.
      rewrite order_by_created_at_desc_perm in Hh.
      by apply list_elem_of_filter in Hh as [_ Hh].
    + destruct (retry_loop _ _ _ _) as [[link0|e] w0] eqn:Hloop; [|done].
      injection H as <- <-. right.
      apply retry_loop_return in Hloop as (d & p & _ & Hlinks & _ & Hcode).
      rewrite Hlinks, Hcode.
      split; [apply elem_of_app; right; by left|]. apply code_from_shape.
Qed.

Lemma generated_short_code_shape_witness :
  String.length "dkryFM" = 6
  ∧ Forall (λ c, Str.isalnum c = true) (Str.chars "dkryFM").
Proof.
  destruct generated_short_code_shape as [_ H].
  destruct (H accept_all nobody sample_url fresh_world
              (new_link empty_db 100 sample_url "dkryFM")
              (create_link accept_all nobody sample_url fresh_world).2)
    as [Hin|(_ & Hlen & Hall)].
  - by vm_compute.
  - exfalso. by apply elem_of_nil in Hin.
  - by split.
Defined.

Lemma no_existing_link url d :
  url_taken url d = false →
  head (order_by_created_at_desc
          (filter (λ l, ShortLink.original_url l = url) (links_shortlink d)))
  = None.
Proof. intros H. by rewrite (url_taken_false_filter _ _ H). Qed.

(** [create_link] past validation and deduplication, after [j] collisions:
    the outcome of attempt [j]. *)
Lemma create_link_reach V others url w j :
  (validate_url V url w).1 = Return true →
  url_taken url (db w) = false →
  j < max_retries →
  (∀ k, k < j → collides others 0 w k) →
  let d := commits_upto others 0 (S j) (db w) in
  let code := code_from (urandom w) (drawn w + 6 * j) in
  code_taken code d = false →
  (url_taken url d = true →
   ∃ w', create_link V others url w =
           (Raise (IntegrityError
                     "UNIQUE constraint failed: links_shortlink.original_url"),
            w')
         ∧ db w' = d ∧ drawn w' = drawn w + 6 * S j
         ∧ last (log w') =
             Some (ERROR,
                   UnexpectedCreateError
                     (IntegrityError
                        "UNIQUE constraint failed: links_shortlink.original_url")))
  ∧ (url_taken url d = false →
     ∃ w', create_link V others url w =
             (Return (new_link d (now w) url code), w')
           ∧ db w' = with_link d (new_link d (now w) url code)
           ∧ drawn w' = drawn w + 6 * S j).
Proof.
  intros Hv Hfree Hj Hcol d code Hcode.
  rewrite create_link_eq, Hv, (no_existing_link _ _ Hfree).
  destruct (retry_loop_reach others url j (max_retries - S j) 0 w Hcol)
    as (w0 & Hdb & Hdr & _ & _ & Heq).
  replace (j + S (max_retries - S j)) with max_retries in Heq by lia.
  rewrite Heq. fold d code. rewrite Hcode. split.
  - intros ->. eexists. split; [done|]. split; [done|]. split; [done|].
    cbn. by rewrite last_snoc.
  - intros ->. eexists. split; [done|]. cbn. by rewrite Hdr.
Qed.

(** C4.  When validation passes and no row holds the URL, [create_link]
    makes between one and ten attempts, each on six fresh values of the
    random source.  If every one of the ten attempts meets a taken code,
    it raises [RuntimeError] (the specification's [AllocationExhausted])
    and has written no row.  If attempts [0..j-1] meet a taken code and
    attempt [j] does not, the link with the code of attempt [j] is
    returned: a collision is followed by another attempt. *)
Theorem create_link_bounded_retry V others url w :
  (validate_url V url w).1 = Return true →
  url_taken url (db w) = false →
  (∃ k, 1 ≤ k ≤ max_retries
        ∧ drawn (create_link V others url w).2 = drawn w + 6 * k)
  ∧ ((∀ k, k < max_retries → collides others 0 w k) →
     ∃ w', create_link V others url w =
             (Raise (RuntimeError
                       "Failed to generate unique short code after 10 attempts"),
              w')
           ∧ db w' = commits_upto others 0 max_retries (db w)
           ∧ drawn w' = drawn w + 6 * max_retries)
  ∧ (∀ j, j < max_retries →
          (∀ k, k < j → collides others 0 w k) →
          let d := commits_upto others 0 (S j) (db w) in
          let code := code_from (urandom w) (drawn w + 6 * j) in
          url_taken url d = false → code_taken code d = false →
          ∃ w', create_link V others url w =
                  (Return (new_link d (now w) url code), w')
                ∧ db w' = with_link d (new_link d (now w) url code)
                ∧ drawn w' = drawn w + 6 * S j).
Proof.
  intros Hv Hfree. split; [|split].
  - rewrite create_link_eq, Hv, (no_existing_link _ _ Hfree).
    destruct (retry_loop_draws others url (seq 0 max_retries) w)
      as (k & Hk & Hk1 & Hd).
    exists k. split; [split; [by apply Hk1|by rewrite length_seq in Hk]|].
    destruct (retry_loop _ _ _ _) as [[link|e] w0]; [done|]. exact Hd.
  - intros Hcol.
    rewrite create_link_eq, Hv, (no_existing_link _ _ Hfree).
    destruct (retry_loop_skip others url max_retries 0 0 w Hcol)
      as (w0 & Heq & Hdb & Hdr & _).
    rewrite Nat.add_0_r in Heq. rewrite Heq. cbn [seq retry_loop raise].
    eexists. split; [done|]. done.
  - intros j Hj Hcol d code Hu Hc.
    by apply (create_link_reach V others url w j Hv Hfree Hj Hcol Hc).
Qed.

Lemma create_link_bounded_retry_witness :
  ∃ w', create_link accept_all nobody sample_url crowded_world =
          (Raise (RuntimeError
                    "Failed to generate unique short code after 10 attempts"),
           w')
        ∧ db w' = db crowded_world ∧ drawn w' = 60.
Proof.
  destruct (create_link_bounded_retry accept_all nobody sample_url
              crowded_world) as (_ & H & _).
  - by vm_compute.
  - by vm_compute.
  - destruct H as (w' & H & Hdb & Hdr).
    + intros k Hk.
      do 10 (destruct k as [|k]; [by vm_compute|]). exfalso. unfold max_retries in Hk. lia.
    + exists w'. split; [exact H|]. split; [by rewrite Hdb|by rewrite Hdr].
Defined.

(** C5, as the code has it.  When another request has committed a row for
    the same URL after the deduplication query and the insertion of
    [create_link] fails on the uniqueness of [original_url] (the code it
    drew is free), the [IntegrityError] is logged as an unexpected error,
    the last record of the log, and raised to the caller: no further
    attempt is made, and this request writes no row. *)
Theorem create_link_url_race_raises V others url w j :
  (validate_url V url w).1 = Return true →
  url_taken url (db w) = false →
  j < max_retries →
  (∀ k, k < j → collides others 0 w k) →
  code_taken (code_from (urandom w) (drawn w + 6 * j))
             (commits_upto others 0 (S j) (db w)) = false →
  url_taken url (commits_upto others 0 (S j) (db w)) = true →
  ∃ w', create_link V others url w =
          (Raise (IntegrityError
                    "UNIQUE constraint failed: links_shortlink.original_url"),
           w')
        ∧ db w' = commits_upto others 0 (S j) (db w)
        ∧ drawn w' = drawn w + 6 * S j
        ∧ last (log w') =
            Some (ERROR,
                  UnexpectedCreateError
                    (IntegrityError
                       "UNIQUE constraint failed: links_shortlink.original_url")).
Proof.
  intros Hv Hfree Hj Hcol Hcode Hrace.
  by apply (create_link_reach V others url w j Hv Hfree Hj Hcol Hcode).
Qed.

Lemma create_link_url_race_raises_witness :
  ∃ w', create_link accept_all racing_writer sample_url fresh_world =
          (Raise (IntegrityError
                    "UNIQUE constraint failed: links_shortlink.original_url"),
           w')
        ∧ db w' = racing_writer 0 empty_db ∧ drawn w' = 6
        ∧ last (log w') =
            Some (ERROR,
                  UnexpectedCreateError
                    (IntegrityError
                       "UNIQUE constraint failed: links_shortlink.original_url")).
Proof.
  apply (create_link_url_race_raises accept_all racing_writer sample_url
           fresh_world 0).
  - by vm_compute.
  - by vm_compute.
  - unfold max_retries. lia.
  - intros k Hk. lia.
  - by vm_compute.
  - by vm_compute.
Defined.

(** C5, as the specification has it, fails: in [fresh_world] no row holds
    [sample_url] at the deduplication query, [racing_writer] commits one
    (under another code than the one drawn) before the insertion, and
    [create_link] raises instead of returning that row. *)
Lemma create_link_url_race_not_refetched :
  url_taken sample_url (db fresh_world) = false
  ∧ url_taken sample_url (racing_writer 0 (db fresh_world)) = true
  ∧ code_taken "dkryFM" (racing_writer 0 (db fresh_world)) = false
  ∧ (create_link accept_all racing_writer sample_url fresh_world).1 =
      Raise (IntegrityError
               "UNIQUE constraint failed: links_shortlink.original_url")
  ∧ ¬ ∃ link, (create_link accept_all racing_writer sample_url fresh_world).1
              = Return link.
Proof.
  split; [by vm_compute|]. split; [by vm_compute|]. split; [by vm_compute|].
  split; [by vm_compute|]. intros [link H]. by vm_compute in H.
Qed.

(** ** Splitting and stripping *)

Lemma string_app_cons x a b : String x a +:+ b = String x (a +:+ b).
Proof. reflexivity. Qed.

Lemma string_app_assoc a b c : (a +:+ b) +:+ c = a +:+ b +:+ c.
Proof.
  induction a as [|x a IH]; [done|]. by rewrite !string_app_cons, IH.
Qed.

Lemma snoc_inv r c s d :
  r +:+ String c "" = String d s →
  (r = "" ∧ c = d ∧ s = "") ∨ (∃ r', r = String d r' ∧ s = r' +:+ String c "").
Proof.
  destruct r as [|y r].
  - intros [= -> <-]. by left.
  - rewrite string_app_cons. intros [= -> <-]. right. by exists r.
Qed.

Lemma split_first sep s :
  ∃ first entries rest,
    Str.split sep s = first :: entries
    ∧ (sep ∉ Str.chars first)
    ∧ s = first +:+ rest
    ∧ (rest = "" ∨ ∃ rest', rest = String sep rest').
Proof.
  induction s as [|c s IH].
  - exists "", [], "". split; [done|]. split; [apply not_elem_of_nil|].
    split; [done|by left].
  - cbn [Str.split]. destruct (Ascii.eqb_spec c sep) as [->|Hc].
    + exists "", (Str.split sep s), (String sep s).
      split; [done|]. split; [apply not_elem_of_nil|]. split; [done|].
      right. by exists s.
    + destruct IH as (first & entries & rest & -> & Hsep & -> & Hrest).
      exists (String c first), entries, rest. split; [done|].
      split; [|done]. cbn [Str.chars]. apply not_elem_of_cons.
      split; [congruence|done].
Qed.

Lemma lstrip_spec s :
  ∃ lead, s = lead +:+ Str.lstrip s ∧ Str.all_space lead
          ∧ ∀ c r, Str.lstrip s = String c r → Str.isspace c = false.
Proof.
  induction s as [|c s IH].
  - exists "". split; [done|]. split; [by constructor|done].
  - cbn [Str.lstrip]. destruct (Str.isspace c) eqn:Hc.
    + destruct IH as (lead & Hs & Hlead & Hfirst).
      exists (String c lead). split; [by rewrite string_app_cons, <- Hs|].
      split; [by constructor|done].
    + exists "". split; [done|]. split; [by constructor|].
      intros c' r [= <- _]. done.
Qed.

Lemma rstrip_spec s :
  ∃ trail, s = Str.rstrip s +:+ trail ∧ Str.all_space trail
           ∧ ∀ c r, Str.rstrip s = r +:+ String c "" → Str.isspace c = false.
Proof.
  induction s as [|c s IH].
  - exists "". split; [done|]. split; [by constructor|].
    intros c r H. by destruct r.
  - destruct IH as (trail & Hs & Htrail & Hlast). cbn [Str.rstrip].
    destruct (Str.rstrip s) as [|x r0] eqn:Hr.
    + change ("" +:+ trail) with trail in Hs. subst s.
      destruct (Str.isspace c) eqn:Hc.
      * exists (String c trail). split; [done|]. split; [by constructor|].
        intros c' r H. by destruct r.
      * exists trail. split; [done|]. split; [done|].
        intros c' r H. symmetry in H.
        apply snoc_inv in H as [(_ & -> & _)|(r' & _ & H)]; [done|].
        by destruct r'.
    + exists trail. split; [by rewrite string_app_cons, <- Hs|].
      split; [done|].
      intros c' r H. symmetry in H.
      apply snoc_inv in H as [(_ & _ & [=])|(r' & _ & H)].
      by apply (Hlast c' r').
Qed.

Lemma rstrip_first s c r :
  Str.rstrip s = String c r → ∃ r0, s = String c r0.
Proof.
  destruct s as [|x s]; [done|]. cbn [Str.rstrip].
  destruct (Str.rstrip s); [destruct (Str.isspace x)|];
    intros [= <- _]; by eexists.
Qed.

(** What [x_forwarded_for.split(",")[0].strip()] computes is the first
    comma-separated entry without its surrounding whitespace. *)
Lemma split_strip_first_entry header :
  first_entry_trimmed header (Str.strip (hd "" (Str.split "," header))).
Proof.
  destruct (split_first "," header)
    as (first & entries & rest & -> & Hcomma & -> & Hrest).
  cbn [hd]. unfold Str.strip.
  destruct (lstrip_spec first) as (lead & Hfirst & Hlead & Hstart).
  destruct (rstrip_spec (Str.lstrip first)) as (trail & Hmid & Htrail & Hend).
  exists lead, trail, rest.
  assert (Hwhole : first = lead +:+ Str.rstrip (Str.lstrip first) +:+ trail)
    by (by rewrite <- Hmid).
  split; [by rewrite Hwhole at 1; rewrite !string_app_assoc|].
  split; [done|]. split; [done|]. split; [by rewrite <- Hwhole|].
  split; [done|]. split; [|done].
  intros c r Hr. apply rstrip_first in Hr as [r0 Hr]. by apply (Hstart c r0).
Qed.

(** ** [_extract_metadata] *)

(** [_extract_metadata] in closed form: it raises only what reading
    [request.GET] raises, and leaves the world alone. *)
Lemma extract_metadata_eq request w :
  _extract_metadata request w =
    match GET request with
    | Raise e => (Raise e, w)
    | Return query =>
        (Return (Metadata.Build
                   match query with
                   | [] => None
                   | _ :: _ => Some (dict_of_items query)
                   end
                   (META request !! "HTTP_USER_AGENT")
                   (META request !! "HTTP_REFERER")
                   match META request !! "HTTP_X_FORWARDED_FOR" with
                   | Some (String c rest) =>
                       Some (Str.strip (hd "" (Str.split "," (String c rest))))
                   | _ => META request !! "REMOTE_ADDR"
                   end), w)
    end.
Proof.
  unfold _extract_metadata. unfold bind at 1.
  destruct (GET request) as [query|e]; [|done].
  unfold bind at 1.
  destruct (META request !! "HTTP_X_FORWARDED_FOR") as [[|c rest]|]; [done| |done].
  unfold bind at 1.
  destruct (split_first "," (String c rest)) as (first & entries & _ & -> & _).
  done.
Qed.

Lemma extract_metadata_world request w : (_extract_metadata request w).2 = w.
Proof. rewrite extract_metadata_eq. by destruct (GET request). Qed.

(** ** [record_click] *)

Lemma ids_after_increment pk links :
  map ShortLink.id
      (map (λ l, if decide (ShortLink.id l = pk) then increment_clicks l else l)
           links)
  = map ShortLink.id links.
Proof.
  rewrite map_map. apply map_ext. intros l. by destruct (decide _).
Qed.

(** [record_click] by cases: the metadata cannot be extracted, the link is
    gone when the transaction commits, or the click is recorded. *)
Lemma record_click_eq clean short_link request w :
  let code := ShortLink.short_code short_link in
  record_click clean short_link request w =
    match (_extract_metadata request w).1 with
    | Raise e => (Return None, logged ERROR (RecordClickFailed code e) w)
    | Return metadata =>
        let click := new_click (db w) (now w) short_link metadata in
        let ip := Metadata.ip_address metadata in
        if decide (ShortLink.id short_link
                   ∈ map ShortLink.id (links_shortlink (db w)))
        then (Return (Some click),
              logged INFO (RecordedClick code ip)
                     (set_db (with_click (db w) (ShortLink.id short_link)
                                         (stored_click clean click)) w))
        else (Return None,
              logged ERROR (RecordClickFailed code
                              (IntegrityError "FOREIGN KEY constraint failed"))
                     (logged INFO (RecordedClick code ip) w))
    end.
Proof.
  intros code. unfold record_click, try_except. unfold bind at 1.
  pose proof (extract_metadata_world request w) as Hw.
  destruct (_extract_metadata request w) as [[metadata|e] w0]; cbn in Hw;
    subst w0; cbn [fst]; [|done].
  unfold atomic, bind, Click_objects_create,
    ShortLink_filter_pk_update_increment, logger, ret.
  cbn [db set_db links_shortlink links_click]. cbv zeta.
  unfold dangling_clicks. cbn [db links_shortlink links_click].
  rewrite drop_app_length, ids_after_increment, filter_cons, filter_nil.
  cbn [Click.short_link stored_click].
  destruct (decide (ShortLink.id short_link ∈ _)) as [Hin|Hout].
  - by rewrite decide_False by (intros Hn; by apply Hn).
  - by rewrite decide_True.
Qed.

Lemma dict_of_items_snoc query k v :
  dict_of_items (query ++ [(k, v)]) = <[k := v]> (dict_of_items query).
Proof. unfold dict_of_items. by rewrite foldl_app. Qed.

Lemma last_value_snoc query k' v' k v :
  last_value (query ++ [(k', v')]) k v ↔
  (k = k' ∧ v = v') ∨ (k ≠ k' ∧ last_value query k v).
Proof.
  split.
  - intros (before & after & Heq & Hk).
    destruct after as [|y after _] using rev_ind.
    + apply app_inj_tail in Heq as [_ [= <- <-]]. by left.
    + rewrite app_comm_cons, app_assoc in Heq.
      apply app_inj_tail in Heq as [-> <-]. right.
      rewrite fmap_app, not_elem_of_app in Hk. destruct Hk as [Hk Hk'].
      split; [intros ->; apply Hk'; by apply list_elem_of_singleton|].
      by exists before, after.
  - intros [[-> ->]|(Hne & before & after & -> & Hk)].
    + exists query, []. split; [done|]. apply not_elem_of_nil.
    + exists before, (after ++ [(k', v')]).
      split; [by rewrite <- app_assoc|].
      rewrite fmap_app, not_elem_of_app. split; [done|].
      by intros ?%list_elem_of_singleton.
Qed.

(** [dict(request.GET.items())] binds every key to its last value. *)
Lemma dict_of_items_lookup query k v :
  dict_of_items query !! k = Some v ↔ last_value query k v.
Proof.
  induction query as [|[k' v'] query IH] using rev_ind.
  - split; [done|]. intros (before & after & Heq & _). by destruct before.
  - rewrite dict_of_items_snoc, last_value_snoc, lookup_insert.
    destruct (decide (k' = k)) as [->|Hne].
    + split; [intros [= ->]; by left|].
      by intros [[_ ->]|[Hne _]].
    + rewrite IH. split; [intros H; right; by split|].
      by intros [[-> _]|[_ H]].
Qed.

Lemma last_value_NoDup query k v :
  NoDup query.*1 → last_value query k v ↔ (k, v) ∈ query.
Proof.
  intros Hnd. split.
  - intros (before & after & -> & _).
    apply elem_of_app. right. by left.
  - intros (before & after & ->)%list_elem_of_split. exists before, after.
    split; [done|]. rewrite fmap_app, fmap_cons in Hnd.
    apply NoDup_app in Hnd as (_ & _ & Hnd). by apply NoDup_cons in Hnd as [Hk _].
Qed.

Lemma counts_after_click d pk click :
  Click.short_link click = pk →
  counts_consistent d → counts_consistent (with_click d pk click).
Proof.
  unfold counts_consistent. cbn [with_click links_shortlink links_click].
  intros Hfk Hinv. apply Forall_map. eapply Forall_impl; [exact Hinv|].
  intros l Hl. cbv beta in *. rewrite filter_app, length_app, filter_cons, filter_nil.
  destruct (decide (ShortLink.id l = pk)) as [Heq|Hne].
  - cbn [increment_clicks ShortLink.id ShortLink.clicks_count].
    rewrite decide_True by congruence. cbn. lia.
  - rewrite decide_False by congruence. cbn. lia.
Qed.

(** C2.  A [record_click] that returns a click has appended exactly one
    row, the row of that click, which refers to the link; the link is
    stored, the rows with its primary key have their [clicks_count] raised
    by one and every other link row is as before; so counters that
    equalled the numbers of click rows still do.  A [record_click] that
    returns [None] has left the database as it was: the two writes happen
    together or not at all. *)
Theorem record_click_counts clean short_link request w :
  (∀ click w',
     record_click clean short_link request w = (Return (Some click), w') →
     links_click (db w') = links_click (db w) ++ [stored_click clean click]
     ∧ Click.short_link (stored_click clean click) = ShortLink.id short_link
     ∧ Click.short_link click = ShortLink.id short_link
     ∧ ShortLink.id short_link ∈ map ShortLink.id (links_shortlink (db w))
     ∧ links_shortlink (db w') =
         map (λ l, if decide (ShortLink.id l = ShortLink.id short_link)
                   then increment_clicks l else l)
             (links_shortlink (db w))
     ∧ (counts_consistent (db w) → counts_consistent (db w')))
  ∧ (∀ w', record_click clean short_link request w = (Return None, w') →
           db w' = db w).
Proof.
  pose proof (record_click_eq clean short_link request w) as Heq.
  cbv zeta in Heq. split.
  - intros click w' H. rewrite Heq in H.
    destruct (_extract_metadata request w).1 as [metadata|e]; [|done].
    destruct (decide _) as [Hin|Hout]; [|done].
    injection H as <- <-. split; [done|]. split; [done|]. split; [done|].
    split; [done|]. split; [done|]. by apply counts_after_click.
  - intros w' H. rewrite Heq in H.
    destruct (_extract_metadata request w).1 as [metadata|e].
    + destruct (decide _) as [Hin|Hout]; [done|]. by injection H as <-.
    + by injection H as <-.
Qed.

Lemma record_click_counts_witness :
  links_click (db clicked_world) = [proxied_click]
  ∧ counts_consistent (db clicked_world).
Proof.
  destruct (record_click_counts sample_clean_ipv6_address sample_link
              proxied_request linked_world) as [H _].
  destruct (H proxied_click clicked_world)
    as (Hclicks & _ & _ & _ & _ & Hinv).
  - by vm_compute.
  - split; [by rewrite Hclicks|]. apply Hinv. by repeat constructor.
Defined.

(** A [try] whose single clause catches every exception, logs it and
    returns [None] never raises, whatever its body does. *)
Lemma catch_all_returns {A} (body : M (option A)) (ev : Exn → LogEvent) w :
  ∃ result w',
    try_except body (λ e, Some (logger ERROR (ev e) >> ret None)) w
    = (Return result, w').
Proof.
  unfold try_except. destruct (body w) as [[a|e] w']; by eexists _, _.
Qed.

(** C6.  [record_click] always returns and never raises.  When it returns
    [None], an error in the extraction of the metadata or in the
    transaction was caught: the database is as before and the last log
    record is the error.  The redirect of a stored short code therefore
    answers with what Django's [redirect] makes of the original URL,
    whatever happens to the click. *)
Theorem record_click_never_raises clean short_link request w :
  (∃ result w',
     record_click clean short_link request w = (Return result, w')
     ∧ (result = None →
        db w' = db w
        ∧ ∃ e, last (log w') =
                 Some (ERROR, RecordClickFailed
                                (ShortLink.short_code short_link) e)))
  ∧ (∀ redirect short_code,
       get_object_or_404 short_code w = (Return short_link, w) →
       ∃ w', RedirectView_get clean redirect request short_code w =
               (redirect (ShortLink.original_url short_link), w')).
Proof.
  split.
  - pose proof (record_click_eq clean short_link request w) as Heq.
    cbv zeta in Heq. rewrite Heq. destruct (_extract_metadata request w).1 as [metadata|e].
    + destruct (decide _) as [Hin|Hout].
      * eexists _, _. split; [done|]. done.
      * eexists _, _. split; [done|]. intros _. split; [done|].
        eexists. cbn. by rewrite last_snoc.
    + eexists _, _. split; [done|]. intros _. split; [done|].
      eexists. cbn. by rewrite last_snoc.
  - intros redirect short_code Hget. unfold RedirectView_get.
    unfold bind at 1.
    rewrite Hget. unfold bind at 1, try_except. unfold bind at 1.
    destruct (catch_all_returns
                (let* metadata := _extract_metadata request in
                 atomic
                   (let* click := Click_objects_create clean short_link
                                    (Metadata.query_params metadata)
                                    (Metadata.user_agent metadata)
                                    (Metadata.referrer metadata)
                                    (Metadata.ip_address metadata) in
                    ShortLink_filter_pk_update_increment
                      (ShortLink.id short_link) >>
                    logger INFO (RecordedClick
                                   (ShortLink.short_code short_link)
                                   (Metadata.ip_address metadata)) >>
                    ret (Some click)))
                (RecordClickFailed (ShortLink.short_code short_link)) w)
      as (result & w' & Hrec).
    fold (record_click clean short_link request) in Hrec. rewrite Hrec.
    by eexists.
Qed.

Lemma record_click_never_raises_witness :
  (record_click sample_clean_ipv6_address sample_link unparsable_request
                linked_world).1 = Return None
  ∧ ∃ w', RedirectView_get sample_clean_ipv6_address sample_redirect
            unparsable_request "dkryFM" linked_world =
            (Return (HttpResponseRedirect sample_url), w').
Proof.
  split; [by vm_compute|].
  destruct (record_click_never_raises sample_clean_ipv6_address sample_link
              unparsable_request linked_world) as [_ H].
  apply (H sample_redirect "dkryFM"). by vm_compute.
Defined.

(** The fields of a recorded click, read off the request. *)
Lemma record_click_fields clean short_link request w click w' :
  record_click clean short_link request w = (Return (Some click), w') →
  ∃ query,
    GET request = Return query
    ∧ links_click (db w') = links_click (db w) ++ [stored_click clean click]
    ∧ Click.query_params click =
        match query with
        | [] => None
        | _ :: _ => Some (dict_of_items query)
        end
    ∧ Click.ip_address click =
        match META request !! "HTTP_X_FORWARDED_FOR" with
        | Some (String c rest) =>
            Some (Str.strip (hd "" (Str.split "," (String c rest))))
        | _ => META request !! "REMOTE_ADDR"
        end.
Proof.
  intros H. pose proof (record_click_eq clean short_link request w) as Heq.
  cbv zeta in Heq. rewrite Heq, extract_metadata_eq in H.
  destruct (GET request) as [query|e]; [|done]. cbn [fst] in H.
  destruct (decide _) as [Hin|Hout]; [|done]. injection H as <- <-.
  by exists query.
Qed.

(** C8, as the code has it.  The client address of a recorded click is
    the first comma-separated entry of the forwarded-for header without
    its surrounding whitespace when that header is present and not empty,
    and the peer address [REMOTE_ADDR] when the header is absent or empty.
    The [Click] that is returned carries this text; the row that is stored
    has no address when the text is missing or empty, the form Django's
    [clean_ipv6_address] gives a text with a colon that it accepts, and
    the very text otherwise. *)
Theorem recorded_ip_address clean short_link request w click w' :
  record_click clean short_link request w = (Return (Some click), w') →
  ∃ chosen row,
    match META request !! "HTTP_X_FORWARDED_FOR" with
    | Some header =>
        if decide (header = "")
        then chosen = META request !! "REMOTE_ADDR"
        else ∃ r, chosen = Some r ∧ first_entry_trimmed header r
    | None => chosen = META request !! "REMOTE_ADDR"
    end
    ∧ Click.ip_address click = chosen
    ∧ links_click (db w') = links_click (db w) ++ [row]
    ∧ Click.ip_address row =
        match chosen with
        | None => None
        | Some EmptyString => None
        | Some text =>
            if Str.contains ":" text
            then match clean text with
                 | Some EmptyString => None
                 | Some normal => Some normal
                 | None => Some text
                 end
            else Some text
        end.
Proof.
  intros (query & _ & Hrow & _ & Hip)%record_click_fields.
  exists (Click.ip_address click), (stored_click clean click).
  split; [|split; [done|split; [done|]]].
  - rewrite Hip.
    destruct (META request !! "HTTP_X_FORWARDED_FOR") as [[|c rest]|];
      [done| |done].
    rewrite decide_False by done. eexists. split; [done|].
    apply split_strip_first_entry.
  - cbn [stored_click Click.ip_address].
    unfold GenericIPAddressField_db_value.
    destruct (Click.ip_address click) as [[|c text]|]; [done| |done].
    destruct (Str.contains ":" (String c text)); [|done].
    by destruct (clean (String c text)) as [[|c' normal]|].
Qed.

Lemma recorded_ip_address_witness :
  (∃ r, Click.ip_address proxied_click = Some r
        ∧ first_entry_trimmed " 203.0.113.7 , 10.0.0.1" r)
  ∧ (∃ row, links_click (db (record_click sample_clean_ipv6_address
                               sample_link ipv6_request linked_world).2)
            = [row]
            ∧ Click.ip_address row = Some "2001:db8::1")
  ∧ (∃ row, links_click (db (record_click sample_clean_ipv6_address
                               sample_link empty_entry_request
                               linked_world).2)
            = [row]
            ∧ Click.ip_address row = None).
Proof.
  split; [|split].
  - destruct (recorded_ip_address sample_clean_ipv6_address sample_link
                proxied_request linked_world proxied_click clicked_world)
      as (chosen & row & Hrule & Hclick & _); [by vm_compute|].
    rewrite Hclick. exact Hrule.
  - destruct (recorded_ip_address sample_clean_ipv6_address sample_link
                ipv6_request linked_world
                (Click.Build 1 1 100 None None None
                   (Some "2001:DB8:0:0:0:0:0:1"))
                (record_click sample_clean_ipv6_address sample_link
                   ipv6_request linked_world).2)
      as (chosen & row & _ & Hclick & Hrows & Hrow); [by vm_compute|].
    exists row. split; [exact Hrows|]. rewrite Hrow, <- Hclick. by vm_compute.
  - destruct (recorded_ip_address sample_clean_ipv6_address sample_link
                empty_entry_request linked_world
                (Click.Build 1 1 100 None None None (Some ""))
                (record_click sample_clean_ipv6_address sample_link
                   empty_entry_request linked_world).2)
      as (chosen & row & _ & Hclick & Hrows & Hrow); [by vm_compute|].
    exists row. split; [exact Hrows|]. rewrite Hrow, <- Hclick. by vm_compute.
Defined.

(** C8, as the specification has it, fails: the forwarded-for header of
    [empty_forwarded_request] is present, its first entry is the empty
    string, and both the click that is returned and the row that is
    stored carry the peer address. *)
Lemma recorded_ip_address_empty_header :
  META empty_forwarded_request !! "HTTP_X_FORWARDED_FOR" = Some ""
  ∧ spec_ip_address empty_forwarded_request = Some ""
  ∧ ∃ click row w',
      record_click sample_clean_ipv6_address sample_link
                   empty_forwarded_request linked_world
      = (Return (Some click), w')
      ∧ links_click (db w') = [row]
      ∧ Click.ip_address click = Some "203.0.113.7"
      ∧ Click.ip_address row = Some "203.0.113.7"
      ∧ Click.ip_address row ≠ spec_ip_address empty_forwarded_request.
Proof.
  split; [by vm_compute|]. split; [by vm_compute|].
  eexists _, _, _. split; [by vm_compute|]. split; [by vm_compute|].
  split; [by vm_compute|]. split; [by vm_compute|]. by vm_compute.
Qed.

(** C9, as the code has it.  The [query_params] of a recorded click, on
    the [Click] that is returned as on the row that is stored, are absent
    when the query string has no pair; otherwise they bind every key of
    the query string to the value of its last pair, which is the full set
    of pairs exactly when no key is repeated. *)
Theorem recorded_query_params clean short_link request w click w' :
  record_click clean short_link request w = (Return (Some click), w') →
  ∃ query,
    GET request = Return query
    ∧ links_click (db w') = links_click (db w) ++ [stored_click clean click]
    ∧ Click.query_params (stored_click clean click) = Click.query_params click
    ∧ match query with
      | [] => Click.query_params click = None
      | _ :: _ =>
          ∃ params : gmap string string,
            Click.query_params click = Some params
            ∧ (∀ k v, params !! k = Some v ↔ last_value query k v)
            ∧ (NoDup query.*1 →
               ∀ k v, params !! k = Some v ↔ (k, v) ∈ query)
      end.
Proof.
  intros (query & HGET & Hrow & Hparams & _)%record_click_fields.
  exists query. split; [done|]. split; [done|]. split; [done|].
  destruct query as [|kv query]; [done|].
  eexists. split; [exact Hparams|]. split.
  - intros k v. apply dict_of_items_lookup.
  - intros Hnd k v. rewrite dict_of_items_lookup. by apply last_value_NoDup.
Qed.

Lemma recorded_query_params_witness :
  ∃ query,
    GET proxied_request = Return query
    ∧ links_click (db clicked_world)
      = links_click (db linked_world)
        ++ [stored_click sample_clean_ipv6_address proxied_click]
    ∧ Click.query_params (stored_click sample_clean_ipv6_address proxied_click)
      = Click.query_params proxied_click
    ∧ match query with
      | [] => Click.query_params proxied_click = None
      | _ :: _ =>
          ∃ params : gmap string string,
            Click.query_params proxied_click = Some params
            ∧ (∀ k v, params !! k = Some v ↔ last_value query k v)
            ∧ (NoDup query.*1 →
               ∀ k v, params !! k = Some v ↔ (k, v) ∈ query)
      end.
Proof.
  apply (recorded_query_params sample_clean_ipv6_address sample_link
           proxied_request linked_world proxied_click clicked_world).
  by vm_compute.
Defined.

(** C9, as the specification has it, fails: the query string of
    [proxied_request] holds the pair [a=1], and the recorded click binds
    [a] to [2] only. *)
Lemma recorded_query_params_repeated_key :
  ∃ query click w',
    GET proxied_request = Return query
    ∧ record_click sample_clean_ipv6_address sample_link proxied_request
                   linked_world
      = (Return (Some click), w')
    ∧ ∃ params : gmap string string,
        Click.query_params click = Some params
        ∧ ("a", "1") ∈ query
        ∧ params !! "a" = Some "2"
        ∧ ¬ (∀ k v, (k, v) ∈ query → params !! k = Some v).
Proof.
  eexists _, proxied_click, _. split; [done|]. split; [by vm_compute|].
  eexists. split; [done|]. split; [by apply (bool_decide_unpack _)|].
  split; [by vm_compute|].
  intros H. specialize (H "a" "1"). vm_compute in H.
  assert (Hin : ("a", "1") ∈ [("utm_source", "x"); ("a", "1"); ("a", "2")])
    by (by apply (bool_decide_unpack _)).
  by specialize (H Hin).
Qed.

(** * Properties of the rest of the application *)

(** ** What [create_link] does to the database *)

Lemma url_taken_spec url d :
  url_taken url d = true ↔ url ∈ map ShortLink.original_url (links_shortlink d).
Proof.
  unfold url_taken. rewrite existsb_exists, list_elem_of_In, in_map_iff.
  split; intros (l & H1 & H2); exists l.
  - by apply String.eqb_eq in H2.
  - split; [done|by apply String.eqb_eq].
Qed.

Lemma code_taken_spec code d :
  code_taken code d = true ↔ code ∈ map ShortLink.short_code (links_shortlink d).
Proof.
  unfold code_taken. rewrite existsb_exists, list_elem_of_In, in_map_iff.
  split; intros (l & H1 & H2); exists l.
  - by apply String.eqb_eq in H2.
  - split; [done|by apply String.eqb_eq].
Qed.

Lemma unique_with_link d url code t :
  url_taken url d = false → code_taken code d = false →
  unique_links d → unique_links (with_link d (new_link d t url code)).
Proof.
  intros Hu Hc [Hurls Hcodes]. unfold unique_links.
  cbn [with_link links_shortlink]. rewrite !map_app. cbn [map new_link].
  split; apply NoDup_app; (split; [done|]);
    (split; [|apply NoDup_singleton]); intros x Hx ->%list_elem_of_singleton.
  - apply url_taken_spec in Hx. cbn in Hx. congruence.
  - apply code_taken_spec in Hx. cbn in Hx. congruence.
Qed.

Section Effect.

Variable others : nat → Database → Database.
Variable url : string.

Lemma retry_loop_effect n : ∀ a w o w',
  retry_loop others url (seq a n) w = (o, w') →
  ∃ k, k ≤ n ∧
    let d := commits_upto others a k (db w) in
    match o with
    | Return link =>
        1 ≤ k ∧ db w' = with_link d link
        ∧ url_taken url d = false
        ∧ code_taken (ShortLink.short_code link) d = false
        ∧ ∃ t, link = new_link d t url (ShortLink.short_code link)
    | Raise _ => db w' = d
    end.
Proof.
  induction n as [|n IH]; intros a w o w' H.
  - injection H as <- <-. by exists 0.
  - cbn [seq retry_loop] in H. rewrite attempt_once_eq in H.
    cbn [set_db db] in H.
    destruct (code_taken _ _) eqn:Hc.
    + apply IH in H as (k & Hk & H). exists (S k). split; [lia|].
      cbn [commits_upto]. destruct o as [link|e]; [|done].
      destruct H as (Hk1 & H). split; [lia|done].
    + destruct (url_taken _ _) eqn:Hu.
      * injection H as <- <-. exists 1. split; [lia|]. done.
      * injection H as <- <-. exists 1. split; [lia|]. cbn [commits_upto].
        split; [done|]. split; [done|]. split; [done|]. split; [done|].
        by eexists.
Qed.

(** A database that keeps its unique constraints under what the other
    requests commit. *)
Lemma commits_upto_unique n : ∀ a d,
  (∀ a d, unique_links d → unique_links (others a d)) →
  unique_links d → unique_links (commits_upto others a n d).
Proof.
  induction n as [|n IH]; intros a d Hothers Hd; [done|].
  cbn [commits_upto]. apply IH; [done|]. by apply Hothers.
Qed.

Lemma commits_upto_quiet n : ∀ a d,
  (∀ a d, others a d = d) → commits_upto others a n d = d.
Proof.
  induction n as [|n IH]; intros a d Hq; [done|].
  cbn [commits_upto]. rewrite Hq. by apply IH.
Qed.

End Effect.

(** The whole effect of [create_link] on the database, after [k] attempts'
    worth of concurrent commits. *)
Lemma create_link_effect V others url w o w' :
  create_link V others url w = (o, w') →
  ∃ k, k ≤ max_retries ∧
    let d := commits_upto others 0 k (db w) in
    match o with
    | Return link =>
        ShortLink.original_url link = url
        ∧ ((k = 0 ∧ db w' = db w ∧ link ∈ links_shortlink (db w))
           ∨ (db w' = with_link d link
              ∧ url_taken url d = false
              ∧ code_taken (ShortLink.short_code link) d = false
              ∧ ∃ t, link = new_link d t url (ShortLink.short_code link)))
    | Raise _ => db w' = d
    end.
Proof.
  intros H. rewrite create_link_eq in H.
  destruct (validate_url V url w).1 as [b|e].
  - destruct (head _) as [link|] eqn:Hh.
    + injection H as <- <-. exists 0. split; [lia|].
      apply head_Some_elem_of in Hh.
      rewrite order_by_created_at_desc_perm in Hh.
      apply list_elem_of_filter in Hh as [Hurl Hin].
      split; [done|]. left. done.
    + destruct (retry_loop _ _ _ _) as [o0 w0] eqn:Hloop.
      apply retry_loop_effect in Hloop as (k & Hk & Hloop). exists k.
      split; [done|]. destruct o0 as [link|e].
      * injection H as <- <-. destruct Hloop as (_ & Hdb & Hu & Hc & t & Heq).
        split; [by rewrite Heq|]. right. split; [done|]. split; [done|].
        split; [done|]. by exists t.
      * injection H as <- <-. done.
  - injection H as <- <-. exists 0. split; [lia|]. done.
Qed.

(** X1.  Served alone, [create_link] never deletes or changes a stored
    row: when it raises, the database is as before; when it returns a
    link, either the database is as before and the link was stored
    already, or exactly that link was appended to the table of links, for
    a URL and under a code that no row held.  The table of clicks is never
    touched. *)
Theorem create_link_appends_at_most_one_row V others url w o w' :
  (∀ a d, others a d = d) →
  create_link V others url w = (o, w') →
  links_click (db w') = links_click (db w)
  ∧ match o with
    | Return link =>
        ShortLink.original_url link = url
        ∧ ((db w' = db w ∧ link ∈ links_shortlink (db w))
           ∨ (db w' = with_link (db w) link
              ∧ (url ∉ map ShortLink.original_url (links_shortlink (db w)))
              ∧ (ShortLink.short_code link
                 ∉ map ShortLink.short_code (links_shortlink (db w)))))
    | Raise _ => db w' = db w
    end.
Proof.
  intros Hq (k & _ & H)%create_link_effect. cbv zeta in H.
  rewrite (commits_upto_quiet others k 0 (db w) Hq) in H.
  destruct o as [link|e]; [|by rewrite H].
  destruct H as [Hurl [(_ & Hdb & Hin)|(Hdb & Hu & Hc & _)]].
  - rewrite Hdb. split; [done|]. split; [done|]. by left.
  - rewrite Hdb. split; [done|]. split; [done|]. right. split; [done|].
    split.
    + intros Hx%url_taken_spec. congruence.
    + intros Hx%code_taken_spec. congruence.
Qed.

Lemma create_link_appends_at_most_one_row_witness :
  db (create_link accept_all nobody sample_url fresh_world).2
  = with_link empty_db sample_link.
Proof.
  destruct (create_link_appends_at_most_one_row accept_all nobody sample_url
              fresh_world (Return sample_link)
              (create_link accept_all nobody sample_url fresh_world).2)
    as (_ & _ & [[_ Hin]|[Hdb _]]).
  - done.
  - by vm_compute.
  - exfalso. by apply elem_of_nil in Hin.
  - exact Hdb.
Defined.

(** X2.  [create_link] keeps the unique constraints of the model: if no
    two stored links share their [original_url] or their [short_code], and
    the other requests keep it so, the same holds after [create_link],
    whatever it returns or raises. *)
Theorem create_link_keeps_links_unique V others url w o w' :
  (∀ a d, unique_links d → unique_links (others a d)) →
  unique_links (db w) →
  create_link V others url w = (o, w') →
  unique_links (db w').
Proof.
  intros Hothers Hw (k & _ & H)%create_link_effect. cbv zeta in H.
  pose proof (commits_upto_unique others k 0 (db w) Hothers Hw) as Hd.
  destruct o as [link|e]; [|by rewrite H].
  destruct H as [_ [(_ & -> & _)|(-> & Hu & Hc & t & ->)]]; [done|].
  by apply unique_with_link.
Qed.

Lemma create_link_keeps_links_unique_witness :
  map ShortLink.original_url
      (links_shortlink
         (db (create_link accept_all nobody "https://example.com/b"
                linked_world).2))
  = [sample_url; "https://example.com/b"]
  ∧ unique_links
      (db (create_link accept_all nobody "https://example.com/b"
             linked_world).2).
Proof.
  split; [by vm_compute|].
  apply (create_link_keeps_links_unique accept_all nobody
           "https://example.com/b" linked_world
           (create_link accept_all nobody "https://example.com/b"
              linked_world).1).
  - done.
  - split; apply (bool_decide_unpack _); by vm_compute.
  - by destruct (create_link _ _ _ _).
Defined.

(** ** Resolving short codes *)

Lemma filter_none {A} (P : A → Prop) `{!∀ x, Decision (P x)} (l : list A) :
  (∀ x, x ∈ l → ¬ P x) → filter P l = [].
Proof.
  induction l as [|x l IH]; intros Hall; [done|].
  rewrite filter_cons, decide_False by (apply Hall; by left).
  apply IH. intros y Hy. apply Hall. by right.
Qed.

Lemma filter_unique {A B} `{EqDecision B} (f : A → B) (l : list A) x :
  NoDup (map f l) → x ∈ l → filter (λ y, f y = f x) l = [x].
Proof.
  induction l as [|y l IH]; intros Hnd Hin.
  - by apply elem_of_nil in Hin.
  - cbn [map] in Hnd. apply NoDup_cons in Hnd as [Hy Hnd].
    rewrite filter_cons. apply elem_of_cons in Hin as [->|Hin].
    + rewrite decide_True by done. f_equal. apply filter_none.
      intros z Hz Heq. apply Hy. rewrite <- Heq.
      apply list_elem_of_In, in_map. by apply list_elem_of_In.
    + rewrite decide_False; [by apply IH|].
      intros Heq. apply Hy. rewrite Heq.
      apply list_elem_of_In, in_map. by apply list_elem_of_In.
Qed.

Lemma get_object_or_404_stored link w :
  NoDup (map ShortLink.short_code (links_shortlink (db w))) →
  link ∈ links_shortlink (db w) →
  get_object_or_404 (ShortLink.short_code link) w = (Return link, w).
Proof.
  intros Hnd Hin. unfold get_object_or_404.
  by rewrite (filter_unique ShortLink.short_code _ link Hnd Hin).
Qed.

(** Once the link is found, the redirect is returned whatever becomes of
    the click. *)
Lemma RedirectView_get_found clean redirect request short_code link w :
  get_object_or_404 short_code w = (Return link, w) →
  RedirectView_get clean redirect request short_code w =
    (redirect (ShortLink.original_url link),
     (record_click clean link request w).2).
Proof.
  intros Hget. unfold RedirectView_get. unfold bind at 1. rewrite Hget.
  unfold bind at 1, try_except. unfold bind at 1.
  pose proof (record_click_eq clean link request w) as Heq. cbv zeta in Heq.
  rewrite Heq. destruct (_extract_metadata request w).1 as [metadata|e];
    [|done].
  by destruct (decide _).
Qed.

Lemma create_link_resolves V others url w link w' clean redirect request :
  (∀ a d, unique_links d → unique_links (others a d)) →
  unique_links (db w) →
  create_link V others url w = (Return link, w') →
  ∃ w'', RedirectView_get clean redirect request
           (ShortLink.short_code link) w'
         = (redirect url, w'').
Proof.
  intros Hothers Hw H.
  pose proof H as (k & _ & Hurl & Heff)%create_link_effect.
  assert (Hu' : unique_links (db w')).
  { pose proof (commits_upto_unique others k 0 (db w) Hothers Hw) as Hd.
    destruct Heff as [(_ & -> & _)|(-> & Hu & Hc & t & ->)]; [done|].
    by apply unique_with_link. }
  assert (Hin : link ∈ links_shortlink (db w')).
  { destruct Heff as [(_ & -> & Hin)|(-> & _)]; [done|].
    cbn. apply elem_of_app. right. by left. }
  eexists. rewrite <- Hurl. apply RedirectView_get_found.
  apply get_object_or_404_stored; [by destruct Hu'|done].
Qed.

(** X3.  Creating and then resolving: in a database that keeps the unique
    constraints, the view answers the short code of the link that
    [create_link] returns for a URL with what Django's [redirect] makes of
    exactly that URL: a redirect to its escaped form, or the exception
    that [redirect] raises for it. *)
Theorem create_then_redirect V others url w link w' clean redirect request :
  (∀ a d, unique_links d → unique_links (others a d)) →
  unique_links (db w) →
  create_link V others url w = (Return link, w') →
  ∃ w'', RedirectView_get clean redirect request
           (ShortLink.short_code link) w'
         = (redirect url, w'').
Proof. apply create_link_resolves. Qed.

Lemma create_then_redirect_witness :
  ∃ w'', RedirectView_get sample_clean_ipv6_address sample_redirect
           proxied_request "dkryFM"
           (create_link accept_all nobody sample_url fresh_world).2
         = (Return (HttpResponseRedirect sample_url), w'').
Proof.
  apply (create_then_redirect accept_all nobody sample_url fresh_world
           sample_link
           (create_link accept_all nobody sample_url fresh_world).2
           sample_clean_ipv6_address sample_redirect proxied_request).
  - done.
  - split; constructor.
  - by vm_compute.
Defined.

Lemma RedirectView_get_unknown clean redirect request short_code w :
  short_code ∉ map ShortLink.short_code (links_shortlink (db w)) →
  RedirectView_get clean redirect request short_code w = (Raise Http404, w).
Proof.
  intros Hnot. unfold RedirectView_get, bind, get_object_or_404.
  rewrite filter_none; [done|].
  intros l Hl Heq. apply Hnot. rewrite <- Heq.
  apply list_elem_of_In, in_map. by apply list_elem_of_In.
Qed.

(** X4.  A short code that no stored link carries is answered with
    [Http404]: nothing is recorded and nothing is logged. *)
Theorem redirect_unknown_code clean redirect request short_code w :
  short_code ∉ map ShortLink.short_code (links_shortlink (db w)) →
  RedirectView_get clean redirect request short_code w = (Raise Http404, w).
Proof. apply RedirectView_get_unknown. Qed.

Lemma redirect_unknown_code_witness :
  RedirectView_get sample_clean_ipv6_address sample_redirect
    proxied_request "nosuch" linked_world
  = (Raise Http404, linked_world).
Proof.
  apply redirect_unknown_code. apply (bool_decide_unpack _). by vm_compute.
Defined.

(** ** Recording clicks *)

Lemma record_click_parsed clean short_link request w :
  parses request →
  ShortLink.id short_link ∈ map ShortLink.id (links_shortlink (db w)) →
  ∃ click w',
    record_click clean short_link request w = (Return (Some click), w')
    ∧ db w' = with_click (db w) (ShortLink.id short_link)
                         (stored_click clean click)
    ∧ Click.short_link click = ShortLink.id short_link
    ∧ Click.id click = click_seq (db w)
    ∧ now w' = now w ∧ urandom w' = urandom w ∧ drawn w' = drawn w.
Proof.
  intros [query Hq] Hin.
  pose proof (record_click_eq clean short_link request w) as Heq.
  cbv zeta in Heq.
  rewrite extract_metadata_eq, Hq in Heq. cbn [fst] in Heq.
  rewrite decide_True in Heq by done. eexists _, _. split; [exact Heq|]. done.
Qed.

(** X5.  The redirect of a stored short code, for a request whose query
    string parses, answers with what Django's [redirect] makes of the
    original URL of the link (a redirect to its escaped form, or the
    exception that [redirect] raises for it) and has, either way, recorded
    exactly one click for it: one row appended, referring to the link, and
    the counter of the link one higher. *)
Theorem redirect_records_one_click clean redirect request link w :
  NoDup (map ShortLink.short_code (links_shortlink (db w))) →
  link ∈ links_shortlink (db w) →
  parses request →
  ∃ click w',
    RedirectView_get clean redirect request (ShortLink.short_code link) w
    = (redirect (ShortLink.original_url link), w')
    ∧ db w' = with_click (db w) (ShortLink.id link) click
    ∧ Click.short_link click = ShortLink.id link.
Proof.
  intros Hnd Hin Hparse.
  destruct (record_click_parsed clean link request w Hparse)
    as (click & w' & Hrec & Hdb & Hfk & _).
  { apply list_elem_of_In, in_map. by apply list_elem_of_In. }
  exists (stored_click clean click), w'. split; [|done].
  rewrite (RedirectView_get_found clean redirect request _ link w)
    by (by apply get_object_or_404_stored).
  by rewrite Hrec.
Qed.

Lemma redirect_records_one_click_witness :
  ∃ click w',
    RedirectView_get sample_clean_ipv6_address sample_redirect
      proxied_request "dkryFM" linked_world
    = (Return (HttpResponseRedirect sample_url), w')
    ∧ db w' = with_click (db linked_world) 1 click
    ∧ Click.short_link click = 1.
Proof.
  apply (redirect_records_one_click sample_clean_ipv6_address sample_redirect
           proxied_request sample_link linked_world).
  - apply (bool_decide_unpack _). by vm_compute.
  - by left.
  - by eexists.
Defined.

Lemma add_clicks_increment n pk links :
  map (λ l, if decide (ShortLink.id l = pk) then add_clicks n l else l)
      (map (λ l, if decide (ShortLink.id l = pk) then increment_clicks l else l)
           links)
  = map (λ l, if decide (ShortLink.id l = pk) then add_clicks (S n) l else l)
        links.
Proof.
  rewrite map_map. apply map_ext. intros l.
  destruct (decide (ShortLink.id l = pk)) as [Heq|Hne].
  - rewrite decide_True by done. unfold add_clicks, increment_clicks; cbn.
    f_equal. lia.
  - by rewrite decide_False.
Qed.

Lemma add_no_clicks pk links :
  map (λ l, if decide (ShortLink.id l = pk) then add_clicks 0 l else l) links
  = links.
Proof.
  rewrite <- (map_id links) at 2. apply map_ext. intros l.
  destruct (decide _); [|done]. by destruct l.
Qed.

(** X6.  Clicks add up: [record_click] for [n] requests in a row, all with
    a query string that parses, on a stored link, returns [n] clicks,
    appends exactly these [n] rows (each click in the form in which the
    database holds it), all referring to the link, and leaves the counter
    of the link [n] higher; no other link row changes. *)
Theorem record_clicks_add_up clean short_link requests : ∀ w,
  ShortLink.id short_link ∈ map ShortLink.id (links_shortlink (db w)) →
  Forall parses requests →
  ∃ clicks w',
    record_clicks clean short_link requests w = (Return (map Some clicks), w')
    ∧ length clicks = length requests
    ∧ links_click (db w') =
        links_click (db w) ++ map (stored_click clean) clicks
    ∧ Forall (λ c, Click.short_link c = ShortLink.id short_link) clicks
    ∧ Forall (λ c, Click.short_link c = ShortLink.id short_link)
             (map (stored_click clean) clicks)
    ∧ links_shortlink (db w') =
        map (λ l, if decide (ShortLink.id l = ShortLink.id short_link)
                  then add_clicks (length requests) l else l)
            (links_shortlink (db w)).
Proof.
  induction requests as [|request requests IH]; intros w Hin Hall.
  - exists [], w. split; [done|]. split; [done|].
    split; [by rewrite app_nil_r|]. split; [done|]. split; [done|].
    by rewrite add_no_clicks.
  - apply Forall_cons in Hall as [Hparse Hall].
    destruct (record_click_parsed clean short_link request w Hparse Hin)
      as (click & w1 & Hrec & Hdb & Hfk & _).
    destruct (IH w1)
      as (clicks & w' & Hrecs & Hlen & Hclicks & Hfks & Hrows & Hlinks);
      [|done|].
    { rewrite Hdb. cbn [with_click links_shortlink].
      by rewrite ids_after_increment. }
    exists (click :: clicks), w'. cbn [record_clicks]. unfold bind at 1.
    rewrite Hrec. unfold bind at 1. rewrite Hrecs.
    split; [done|]. split; [cbn; by rewrite Hlen|].
    split; [rewrite Hclicks, Hdb; cbn [with_click links_click];
            by rewrite <- app_assoc|].
    split; [by constructor|].
    split; [by constructor|].
    rewrite Hlinks, Hdb. cbn [with_click links_shortlink length].
    by rewrite add_clicks_increment.
Qed.

Lemma record_clicks_add_up_witness :
  ∃ clicks w',
    record_clicks sample_clean_ipv6_address sample_link
                  [proxied_request; empty_forwarded_request]
                  linked_world = (Return (map Some clicks), w')
    ∧ length clicks = 2
    ∧ links_shortlink (db w') = [add_clicks 2 sample_link].
Proof.
  destruct (record_clicks_add_up sample_clean_ipv6_address sample_link
              [proxied_request; empty_forwarded_request] linked_world)
    as (clicks & w' & H & Hlen & _ & _ & _ & Hlinks).
  - by left.
  - repeat constructor; by eexists.
  - by exists clicks, w'.
Defined.

(** X7.  Recording a click never changes what a link is: whatever
    [record_click] returns, every stored link keeps its id, original URL,
    short code and creation time, and no link is added or removed. *)
Theorem record_click_keeps_links clean short_link request w :
  map link_identity
      (links_shortlink (db (record_click clean short_link request w).2))
  = map link_identity (links_shortlink (db w)).
Proof.
  pose proof (record_click_eq clean short_link request w) as Heq.
  cbv zeta in Heq.
  rewrite Heq. destruct (_extract_metadata request w).1 as [metadata|e];
    [|done].
  destruct (decide _); [|done].
  cbn [snd logged logger db set_db with_click links_shortlink].
  rewrite map_map. apply map_ext. intros l. by destruct (decide _).
Qed.

(** ** [generate_short_code] for any length *)

(** X8.  [generate_short_code(length)] returns, for every length and every
    state of the random source, a string of exactly [length] characters
    of [a-zA-Z0-9]; it consumes exactly [length] random values and touches
    nothing else. *)
Theorem generate_short_code_any_length n w :
  ∃ code,
    generate_short_code n w = (Return code, advance n w)
    ∧ String.length code = n
    ∧ Forall (λ c, Str.isalnum c = true) (Str.chars code).
Proof.
  eexists. unfold generate_short_code, bind. rewrite for_range_choice.
  split; [done|]. rewrite length_chars, chars_join.
  split; [by rewrite length_map, length_seq|].
  apply Forall_forall. intros c Hc%list_elem_of_In%in_map_iff.
  destruct Hc as (q & <- & _). apply pick_isalnum.
Qed.

(** ** [ShortLink.clean] beside [validate_url] *)

Lemma contains_lower needle hay :
  Str.contains needle hay = true →
  Str.contains (Str.lower needle) (Str.lower hay) = true.
Proof.
  intros (pre & post & ->)%contains_iff. rewrite !lower_app.
  apply contains_middle, contains_refl.
Qed.

(** X9.  The model's own validation is the weaker one: the link of every
    URL that [validate_url] accepts passes [ShortLink.clean], while
    [clean], which does not fold case, lets [http://LOCALHOST/admin]
    through, which [validate_url] refuses. *)
Theorem clean_accepts_validated_urls V :
  (∀ link w w',
     validate_url V (ShortLink.original_url link) w = (Return true, w) →
     ShortLink_clean link w' = (Return tt, w'))
  ∧ ShortLink_clean shouting_link fresh_world = (Return tt, fresh_world)
  ∧ validate_url V (ShortLink.original_url shouting_link) fresh_world
    = (Raise (ValidationError "Localhost URLs are not allowed"), fresh_world).
Proof.
  split; [|split; [done|]].
  - intros link w w' H. unfold validate_url in H. unfold ShortLink_clean.
    destruct (ShortLink.original_url link) as [|c url] eqn:Hurl; [done|].
    destruct (negb _); [done|].
    destruct (Str.contains "localhost" (Str.lower _)) eqn:Hlow; [done|].
    destruct (Str.contains "127.0.0.1" _) eqn:Hip; [done|].
    destruct (Str.contains "localhost" (String c url)) eqn:Hloc; [|done].
    apply contains_lower in Hloc.
    change (Str.lower "localhost") with "localhost" in Hloc. congruence.
  - rewrite validate_url_localhost; [done|].
    exists "http://", "LOCALHOST", "/admin". split; [done|]. left.
    by vm_compute.
Qed.

Lemma clean_accepts_validated_urls_witness :
  ShortLink_clean sample_link fresh_world = (Return tt, fresh_world).
Proof.
  destruct (clean_accepts_validated_urls accept_all) as [H _].
  apply (H sample_link fresh_world fresh_world). by vm_compute.
Defined.

(** ** [_extract_metadata] *)

(** X10.  [_extract_metadata] fails only where reading [request.GET]
    fails, and then with the same exception; otherwise it returns, for
    every combination of headers ([split(",")[0]] is always there), and it
    never changes anything. *)
Theorem extract_metadata_fails_only_on_GET request w :
  match GET request with
  | Raise e => _extract_metadata request w = (Raise e, w)
  | Return query =>
      ∃ metadata,
        _extract_metadata request w = (Return metadata, w)
        ∧ Metadata.user_agent metadata = META request !! "HTTP_USER_AGENT"
        ∧ Metadata.referrer metadata = META request !! "HTTP_REFERER"
        ∧ (Metadata.query_params metadata = None ↔ query = [])
  end.
Proof.
  rewrite extract_metadata_eq. destruct (GET request) as [query|e]; [|done].
  eexists. split; [done|]. split; [done|]. split; [done|].
  by destruct query.
Qed.

(** ** [links/admin.py] *)

Lemma string_length_app a b :
  String.length (a +:+ b) = String.length a + String.length b.
Proof.
  induction a as [|x a IH]; [done|]. rewrite string_app_cons. cbn. by rewrite IH.
Qed.

Lemma string_length_take n : ∀ s,
  String.length (Str.take n s) = n `min` String.length s.
Proof.
  induction n as [|n IH]; intros [|c s]; cbn; [done..|]. by rewrite IH.
Qed.

Lemma take_prefix n : ∀ s, ∃ rest, s = Str.take n s +:+ rest.
Proof.
  induction n as [|n IH]; intros s; [by exists s|].
  destruct s as [|c s]; [by exists ""|].
  destruct (IH s) as [rest Hrest]. exists rest. cbn [Str.take].
  by rewrite string_app_cons, <- Hrest.
Qed.

(** X11.  The URL column of the admin list never shows more than 63
    characters: a URL of at most 60 characters is shown as it is, a
    longer one as its first 60 characters followed by three dots. *)
Theorem original_url_truncated_bounded obj :
  let url := ShortLink.original_url obj in
  String.length (original_url_truncated obj) ≤ 63
  ∧ (String.length url ≤ 60 → original_url_truncated obj = url)
  ∧ (60 < String.length url →
     String.length (original_url_truncated obj) = 63
     ∧ ∃ cut, url = Str.take 60 url +:+ cut
              ∧ original_url_truncated obj = Str.take 60 url +:+ "...").
Proof.
  intros url. unfold original_url_truncated. fold url.
  destruct (60 <? String.length url) eqn:Hlen.
  - apply Nat.ltb_lt in Hlen.
    assert (Hcut : String.length (Str.take 60 url +:+ "...") = 63).
    { rewrite string_length_app, string_length_take.
      change (String.length "...") with 3. lia. }
    split; [lia|]. split; [lia|]. intros _. split; [done|].
    destruct (take_prefix 60 url) as [cut Hcut']. by exists cut.
  - apply Nat.ltb_ge in Hlen. split; [lia|]. split; [done|]. lia.
Qed.

Lemma original_url_truncated_bounded_witness :
  original_url_truncated sample_link = sample_url.
Proof.
  destruct (original_url_truncated_bounded sample_link) as (_ & H & _).
  apply H. vm_compute. lia.
Defined.

(** X12.  The referrer column of the admin list is empty for a click
    without referrer (absent or empty), never shows more than 53
    characters, and shows a referrer of at most 50 characters as it is. *)
Theorem referrer_truncated_bounded obj :
  String.length (referrer_truncated obj) ≤ 53
  ∧ (Click.referrer obj = None ∨ Click.referrer obj = Some "" →
     referrer_truncated obj = "")
  ∧ (∀ referrer, Click.referrer obj = Some referrer →
       (String.length referrer ≤ 50 → referrer_truncated obj = referrer)
       ∧ (50 < String.length referrer →
          referrer_truncated obj = Str.take 50 referrer +:+ "...")).
Proof.
  unfold referrer_truncated.
  destruct (Click.referrer obj) as [[|c rest]|].
  - split; [cbn; lia|]. split; [done|]. intros ? [= <-]. split; [done|].
    cbn. lia.
  - destruct (50 <? String.length (String c rest)) eqn:Hlen.
    + apply Nat.ltb_lt in Hlen.
      split; [rewrite string_length_app, string_length_take;
              change (String.length "...") with 3; lia|].
      split; [by intros [|]|]. intros ? [= <-]. split; [lia|done].
    + apply Nat.ltb_ge in Hlen. split; [lia|].
      split; [by intros [|]|]. intros ? [= <-]. split; [done|lia].
  - split; [cbn; lia|]. split; [done|]. by intros ? [=].
Qed.

Lemma referrer_truncated_bounded_witness :
  referrer_truncated long_referrer_click
  = "https://ref.example/a/very/long/path/that/goes/on/..."
  ∧ referrer_truncated proxied_click = "https://ref.example".
Proof.
  destruct (referrer_truncated_bounded long_referrer_click) as (_ & _ & H).
  destruct (H _ eq_refl) as [_ Hlong].
  destruct (referrer_truncated_bounded proxied_click) as (_ & _ & H').
  destruct (H' _ eq_refl) as [Hshort _].
  split.
  - rewrite Hlong; [done|]. vm_compute. lia.
  - apply Hshort. vm_compute. lia.
Defined.

(** ** [CreateLinkView.post] *)

Lemma lstrip_all_space s : Str.all_space s → Str.lstrip s = "".
Proof.
  induction s as [|c s IH]; [done|]. intros [Hc Hs]%Forall_cons.
  cbn [Str.lstrip]. rewrite Hc. by apply IH.
Qed.

Lemma strip_all_space s : Str.all_space s → Str.strip s = "".
Proof. intros H. unfold Str.strip. by rewrite lstrip_all_space. Qed.

Lemma QueryDict_get_last query key fallback v :
  last_value query key v → QueryDict_get query key fallback = v.
Proof.
  intros H%dict_of_items_lookup. unfold QueryDict_get. by rewrite H.
Qed.

Lemma QueryDict_get_missing query key fallback :
  key ∉ query.*1 → QueryDict_get query key fallback = fallback.
Proof.
  intros Hkey. unfold QueryDict_get.
  destruct (dict_of_items query !! key) as [v|] eqn:Hv; [|done].
  apply dict_of_items_lookup in Hv as (before & after & -> & _).
  exfalso. apply Hkey. rewrite fmap_app, fmap_cons.
  apply elem_of_app. right. by left.
Qed.

(** A second [create_link] for the URL of a first one finds its link. *)
Lemma create_link_repeat V others1 others2 url w link w1 :
  create_link V others1 url w = (Return link, w1) →
  create_link V others2 url w1 =
    (Return link,
     logged INFO (ReturningExisting (ShortLink.short_code link)
                                    (Str.take 50 url)) w1).
Proof.
  intros H. rewrite create_link_eq in H.
  destruct (validate_url V url w).1 as [b|e] eqn:Hv; [|done].
  apply validate_url_returns_true in Hv as Hb. subst b.
  apply create_link_existing;
    [by rewrite (validate_url_pure V url w w1)|].
  destruct (head _) as [link0|] eqn:Hh.
  - injection H as <- <-. exact Hh.
  - destruct (retry_loop _ _ _ _) as [[link0|e] w'] eqn:Hloop; [|done].
    injection H as <- <-.
    apply retry_loop_return in Hloop as (d & p & Hd & Hlinks & Hurl & _).
    rewrite Hlinks, filter_app, (url_taken_false_filter _ _ Hd).
    by rewrite filter_cons, decide_True.
Qed.

Section CreateLinkViewProperties.

Variable V : string → option string.
Variable others : nat → Database → Database.
Variable repr : string → string.

(** [CreateLinkView.post] by cases on the submitted URL and on what
    [create_link] does with it. *)
Lemma CreateLinkView_post_cases request query w :
  POST request = Return query →
  let url := Str.strip (QueryDict_get query "original_url" "") in
  ∃ page,
    CreateLinkView_post V others repr request w =
      (Return page,
       match url with "" => w | _ => (create_link V others url w).2 end)
    ∧ template_name page = "links/create.html"
    ∧ match url with
      | "" => error_messages page = ["Please enter a URL to shorten."]
              ∧ context page = ∅
      | _ =>
          match (create_link V others url w).1 with
          | Return link =>
              error_messages page = []
              ∧ logged_errors page = []
              ∧ context page !! "short_link" = Some (CtxShortLink link)
              ∧ context page !! "short_url" =
                  Some (CtxStr (build_absolute_uri request
                                  ("/" +:+ ShortLink.short_code link)))
              ∧ context page !! "success" = Some (CtxBool true)
          | Raise e =>
              error_messages page =
                [match e with
                 | ValidationError message => ValidationError_str repr message
                 | _ => "An error occurred. Please try again."
                 end]
              ∧ logged_errors page =
                  match e with ValidationError _ => [] | _ => [e] end
              ∧ context page !! "original_url" = Some (CtxStr url)
              ∧ context page !! "short_link" = None
          end
      end.
Proof.
  intros HPOST url. unfold CreateLinkView_post. unfold bind at 1.
  rewrite HPOST. fold url.
  destruct url as [|c rest] eqn:Hurl.
  - eexists. split; [done|]. done.
  - unfold try_except, bind.
    destruct (create_link V others (String c rest) w) as [[link|e] w'].
    + eexists. split; [done|]. split; [done|]. cbn [fst].
      split; [done|]. split; [done|]. by vm_compute.
    + destruct e; eexists; (split; [done|]); (split; [done|]); cbn [fst];
        (split; [done|]); (split; [done|]); by vm_compute.
Qed.

(** X13.  [CreateLinkView.post] answers every submission whose form data
    can be read with the creation page again: no exception of
    [create_link] reaches the caller.  If reading [request.POST] raises,
    that exception is raised, and nothing else has happened. *)
Theorem CreateLinkView_post_always_answers request w :
  match POST request with
  | Return query =>
      ∃ page w', CreateLinkView_post V others repr request w
                 = (Return page, w')
                 ∧ template_name page = "links/create.html"
                 ∧ length (error_messages page) ≤ 1
  | Raise e => CreateLinkView_post V others repr request w = (Raise e, w)
  end.
Proof.
  destruct (POST request) as [query|e] eqn:HPOST;
    [|by unfold CreateLinkView_post, bind; rewrite HPOST].
  destruct (CreateLinkView_post_cases request query w HPOST)
    as (page & Hpost & Htemplate & H).
  cbv zeta in *. eexists page, _. split; [exact Hpost|]. split; [done|].
  destruct (Str.strip _); [destruct H as [-> _]; cbn; lia|].
  destruct (create_link _ _ _ _).1; destruct H as [-> _]; cbn; lia.
Qed.

(** X14.  A submission without [original_url], or whose last
    [original_url] is empty or only whitespace, is answered with the
    request to enter a URL; [create_link] is not called: the database, the
    log and the random source stay as they are. *)
Theorem CreateLinkView_post_blank request query w :
  POST request = Return query →
  ("original_url" ∉ query.*1
   ∨ ∃ v, last_value query "original_url" v ∧ Str.all_space v) →
  ∃ page,
    CreateLinkView_post V others repr request w = (Return page, w)
    ∧ error_messages page = ["Please enter a URL to shorten."]
    ∧ context page = ∅.
Proof.
  intros HPOST Hblank.
  assert (Hurl : Str.strip (QueryDict_get query "original_url" "") = "").
  { destruct Hblank as [Hmissing|(v & Hv & Hspace)].
    - by rewrite QueryDict_get_missing.
    - rewrite (QueryDict_get_last _ _ _ v Hv). by apply strip_all_space. }
  destruct (CreateLinkView_post_cases request query w HPOST)
    as (page & Hpost & _ & H).
  cbv zeta in *. rewrite Hurl in Hpost, H. by exists page.
Qed.

(** X15.  A submitted URL that [validate_url] refuses comes back on the
    creation page with the text of the [ValidationError] as its only
    message; nothing is logged by the view, no row is written and no code
    is drawn. *)
Theorem CreateLinkView_post_rejected request query v message w :
  POST request = Return query →
  last_value query "original_url" v →
  Str.strip v ≠ "" →
  validate_url V (Str.strip v) w = (Raise (ValidationError message), w) →
  ∃ page w',
    CreateLinkView_post V others repr request w = (Return page, w')
    ∧ error_messages page = [ValidationError_str repr message]
    ∧ logged_errors page = []
    ∧ context page !! "original_url" = Some (CtxStr (Str.strip v))
    ∧ db w' = db w ∧ drawn w' = drawn w.
Proof.
  intros HPOST Hv Hne Hval.
  destruct (CreateLinkView_post_cases request query w HPOST)
    as (page & Hpost & _ & H).
  cbv zeta in *. rewrite (QueryDict_get_last _ _ _ v Hv) in Hpost, H.
  rewrite (create_link_validation_error V others _ message w Hval)
    in Hpost, H.
  destruct (Str.strip v) as [|c rest]; [done|]. cbn [fst snd] in *.
  destruct H as (Hmsg & Hlog & Hctx & _). by eexists page, _.
Qed.

(** X16.  Submitting a URL again shows the same short link: if a
    submission was answered with a short link, any later submission of the
    same URL, whatever blanks surround it and whatever scheme and host the
    later request came to, is answered with that link and writes no row.
    Each page shows the short URL that its own request builds for the path
    of the short code, so the two short URLs share the path and differ
    where the two requests' scheme or host do. *)
Theorem CreateLinkView_post_again request query request' query' w page w'
    link :
  POST request = Return query →
  POST request' = Return query' →
  CreateLinkView_post V others repr request w = (Return page, w') →
  context page !! "short_link" = Some (CtxShortLink link) →
  Str.strip (QueryDict_get query' "original_url" "")
  = Str.strip (QueryDict_get query "original_url" "") →
  ∃ page' w'',
    CreateLinkView_post V others repr request' w' = (Return page', w'')
    ∧ context page' !! "short_link" = Some (CtxShortLink link)
    ∧ context page !! "short_url" =
        Some (CtxStr (build_absolute_uri request
                        ("/" +:+ ShortLink.short_code link)))
    ∧ context page' !! "short_url" =
        Some (CtxStr (build_absolute_uri request'
                        ("/" +:+ ShortLink.short_code link)))
    ∧ db w'' = db w'.
Proof.
  intros HPOST HPOST' Hpost Hlink Hsame.
  destruct (CreateLinkView_post_cases request query w HPOST)
    as (page0 & Hpost0 & _ & H).
  cbv zeta in *. rewrite Hpost in Hpost0. injection Hpost0 as <- Hw'.
  destruct (CreateLinkView_post_cases request' query' w' HPOST')
    as (page' & Hpost' & _ & H').
  cbv zeta in *. rewrite Hsame in Hpost', H'.
  destruct (Str.strip (QueryDict_get query "original_url" "")) as [|c rest].
  { destruct H as [_ Hctx]. by rewrite Hctx in Hlink. }
  destruct (create_link V others (String c rest) w) as [[link0|e] w0]
    eqn:Hcreate; cbn [fst snd] in *.
  - destruct H as (_ & _ & Hctx & Hurl & _). rewrite Hctx in Hlink.
    injection Hlink as ->. subst w0.
    rewrite (create_link_repeat V others others _ _ _ _ Hcreate)
      in Hpost', H'.
    cbn [fst snd] in *. destruct H' as (_ & _ & Hctx' & Hurl' & _).
    exists page'. eexists. split; [exact Hpost'|]. done.
  - destruct H as (_ & _ & _ & Hctx). by rewrite Hctx in Hlink.
Qed.

(** X23.  The short link shown after a submission leads where the
    visitor asked: in a database that keeps the unique constraints, the
    view answers the short code on the page with what Django's [redirect]
    makes of the submitted URL, without the blanks around it. *)
Theorem CreateLinkView_post_then_redirect request query w page w' link
    clean redirect visit :
  (∀ a d, unique_links d → unique_links (others a d)) →
  unique_links (db w) →
  POST request = Return query →
  CreateLinkView_post V others repr request w = (Return page, w') →
  context page !! "short_link" = Some (CtxShortLink link) →
  ∃ w'', RedirectView_get clean redirect visit
           (ShortLink.short_code link) w'
         = (redirect (Str.strip (QueryDict_get query "original_url" "")),
            w'').
Proof.
  intros Hothers Hw HPOST Hpost Hlink.
  destruct (CreateLinkView_post_cases request query w HPOST)
    as (page0 & Hpost0 & _ & H).
  cbv zeta in *. rewrite Hpost in Hpost0. injection Hpost0 as <- Hw'.
  destruct (Str.strip (QueryDict_get query "original_url" "")) as [|c rest].
  { destruct H as [_ Hctx]. by rewrite Hctx in Hlink. }
  destruct (create_link V others (String c rest) w) as [[link0|e] w0]
    eqn:Hcreate; cbn [fst snd] in *.
  - destruct H as (_ & _ & Hctx & _). rewrite Hctx in Hlink.
    injection Hlink as ->. subst w0.
    by apply (create_link_resolves V others _ w link w').
  - destruct H as (_ & _ & _ & Hctx). by rewrite Hctx in Hlink.
Qed.

End CreateLinkViewProperties.

Lemma CreateLinkView_post_then_redirect_witness :
  ∃ w'', RedirectView_get sample_clean_ipv6_address sample_redirect
           proxied_request "dkryFM"
           (CreateLinkView_post accept_all nobody sample_repr padded_request
              fresh_world).2
         = (Return (HttpResponseRedirect sample_url), w'').
Proof.
  apply (CreateLinkView_post_then_redirect accept_all nobody sample_repr
           padded_request padded_submission fresh_world
           {| error_messages := []; logged_errors := [];
              template_name := "links/create.html";
              context := {[ "short_link" := CtxShortLink sample_link;
                            "short_url" := CtxStr "https://sho.rt/dkryFM";
                            "success" := CtxBool true ]} |}
           (CreateLinkView_post accept_all nobody sample_repr padded_request
              fresh_world).2
           sample_link sample_clean_ipv6_address sample_redirect
           proxied_request).
  - done.
  - split; constructor.
  - done.
  - by vm_compute.
  - by vm_compute.
Defined.

Lemma CreateLinkView_post_blank_witness :
  ∃ page,
    CreateLinkView_post accept_all nobody sample_repr
      {| POST := Return [("original_url", "   ")];
         build_absolute_uri := sample_build_absolute_uri |} fresh_world
    = (Return page, fresh_world)
    ∧ error_messages page = ["Please enter a URL to shorten."]
    ∧ context page = ∅.
Proof.
  apply (CreateLinkView_post_blank accept_all nobody sample_repr _
           [("original_url", "   ")]); [done|].
  right. exists "   ". split.
  - exists [], []. split; [done|]. apply not_elem_of_nil.
  - repeat constructor.
Defined.

Lemma CreateLinkView_post_rejected_witness :
  ∃ page w',
    CreateLinkView_post accept_all nobody sample_repr
      {| POST := Return [("original_url", " ftp://example.com ")];
         build_absolute_uri := sample_build_absolute_uri |} fresh_world
    = (Return page, w')
    ∧ error_messages page = ["['URL must include http:// or https://']"]
    ∧ logged_errors page = []
    ∧ context page !! "original_url" = Some (CtxStr "ftp://example.com")
    ∧ db w' = db fresh_world ∧ drawn w' = drawn fresh_world.
Proof.
  apply (CreateLinkView_post_rejected accept_all nobody sample_repr _
           [("original_url", " ftp://example.com ")] " ftp://example.com "
           "URL must include http:// or https://" fresh_world).
  - done.
  - exists [], []. split; [done|]. apply not_elem_of_nil.
  - by vm_compute.
  - by vm_compute.
Defined.

Lemma CreateLinkView_post_again_witness :
  ∃ page page' w'',
    (CreateLinkView_post accept_all nobody sample_repr padded_request
       fresh_world).1 = Return page
    ∧ CreateLinkView_post accept_all nobody sample_repr loopback_request
        (CreateLinkView_post accept_all nobody sample_repr padded_request
           fresh_world).2
      = (Return page', w'')
    ∧ context page !! "short_link" = Some (CtxShortLink sample_link)
    ∧ context page' !! "short_link" = Some (CtxShortLink sample_link)
    ∧ context page !! "short_url" = Some (CtxStr "https://sho.rt/dkryFM")
    ∧ context page' !! "short_url"
      = Some (CtxStr "http://127.0.0.1:8000/dkryFM")
    ∧ links_shortlink (db w'') = [sample_link].
Proof.
  destruct (CreateLinkView_post_again accept_all nobody sample_repr
              padded_request padded_submission
              loopback_request [("original_url", sample_url)] fresh_world
              {| error_messages := []; logged_errors := [];
                 template_name := "links/create.html";
                 context := {[ "short_link" := CtxShortLink sample_link;
                               "short_url" := CtxStr "https://sho.rt/dkryFM";
                               "success" := CtxBool true ]} |}
              (CreateLinkView_post accept_all nobody sample_repr
                 padded_request fresh_world).2
              sample_link)
    as (page' & w'' & Hpost & Hlink & Hurl & Hurl' & Hdb).
  - done.
  - done.
  - by vm_compute.
  - by vm_compute.
  - by vm_compute.
  - eexists _, page', w''. split; [by vm_compute|]. split; [exact Hpost|].
    split; [by vm_compute|]. split; [exact Hlink|].
    split; [by vm_compute|]. split; [exact Hurl'|].
    rewrite Hdb. by vm_compute.
Defined.

(** ** Referential integrity and deletion *)

(** X17.  [record_click] keeps the foreign key of [Click] valid: if every
    click refers to a stored link before, every click does afterwards,
    whether the click was recorded or the transaction rolled back. *)
Theorem record_click_keeps_references clean short_link request w :
  clicks_refer_to_links (db w) →
  clicks_refer_to_links (db (record_click clean short_link request w).2).
Proof.
  intros Hrefs.
  pose proof (record_click_eq clean short_link request w) as Heq.
  cbv zeta in Heq.
  rewrite Heq. destruct (_extract_metadata request w).1 as [metadata|e];
    [|done].
  destruct (decide _) as [Hin|Hout]; [|done].
  unfold clicks_refer_to_links in *.
  cbn [snd logged logger db set_db with_click links_shortlink links_click].
  rewrite ids_after_increment. apply Forall_app. split; [done|].
  by constructor.
Qed.

Lemma record_click_keeps_references_witness :
  clicks_refer_to_links (db clicked_world).
Proof.
  apply (record_click_keeps_references sample_clean_ipv6_address
           sample_link proxied_request linked_world).
  constructor.
Defined.

Lemma get_object_found pk link w :
  get_object pk w = (Return link, w) →
  link ∈ links_shortlink (db w) ∧ ShortLink.id link = pk.
Proof.
  unfold get_object. intros H.
  destruct (filter _ _) as [|l [|l' ls]] eqn:Hf; [done| |done].
  injection H as ->.
  assert (Hin : link ∈ filter (λ l, ShortLink.id l = pk)
                              (links_shortlink (db w)))
    by (rewrite Hf; by left).
  apply list_elem_of_filter in Hin as [Hid Hin]. done.
Qed.

Lemma filter_filter_implied {A} (P Q : A → Prop)
    `{!∀ x, Decision (P x)} `{!∀ x, Decision (Q x)} (l : list A) :
  (∀ x, P x → Q x) → filter P (filter Q l) = filter P l.
Proof.
  intros HPQ. induction l as [|x l IH]; [done|].
  rewrite (filter_cons Q). destruct (decide (Q x)) as [HQ|HnQ].
  - rewrite !filter_cons. destruct (decide (P x)); by rewrite IH.
  - rewrite IH, filter_cons. rewrite decide_False; [done|].
    intros HP. by apply HnQ, HPQ.
Qed.

(** X18.  Deleting a link takes its clicks with it and nothing else:
    [DeleteLinkView.delete] of a stored link redirects to the list, removes
    the link and exactly the clicks that refer to it, and leaves a
    database in which every click still refers to a stored link and every
    counter still equals the number of clicks of its link, if that was so
    before. *)
Theorem delete_cascades success_url pk link w :
  get_object pk w = (Return link, w) →
  ∃ page w',
    DeleteLinkView_delete success_url pk w = (Return page, w')
    ∧ response page = HttpResponseRedirect success_url
    ∧ logged_deleting page = ShortLink.short_code link
    ∧ links_shortlink (db w')
      = filter (λ l, ShortLink.id l ≠ pk) (links_shortlink (db w))
    ∧ links_click (db w')
      = filter (λ c, Click.short_link c ≠ pk) (links_click (db w))
    ∧ (clicks_refer_to_links (db w) → clicks_refer_to_links (db w'))
    ∧ (counts_consistent (db w) → counts_consistent (db w')).
Proof.
  intros Hget. pose proof (get_object_found _ _ _ Hget) as [Hin Hid].
  eexists _, _. split.
  { unfold DeleteLinkView_delete. unfold bind at 1. rewrite Hget.
    unfold bind at 1. rewrite Hget. unfold bind, ShortLink_delete, ret.
    rewrite Hid. reflexivity. }
  cbn [response logged_deleting db set_db links_shortlink links_click].
  split; [done|]. split; [done|]. split; [done|]. split; [done|]. split.
  - unfold clicks_refer_to_links. cbn [links_shortlink links_click].
    intros Hrefs. apply Forall_forall. intros c [Hfk Hc]%list_elem_of_filter.
    rewrite Forall_forall in Hrefs. specialize (Hrefs c Hc).
    apply list_elem_of_In, in_map_iff in Hrefs as (l & Hl & Hlin).
    apply list_elem_of_In, in_map_iff. exists l. split; [done|].
    apply list_elem_of_In, list_elem_of_filter. split; [congruence|].
    by apply list_elem_of_In.
  - unfold counts_consistent. cbn [links_shortlink links_click].
    intros Hcounts. apply Forall_forall. intros l [Hl Hlin]%list_elem_of_filter.
    rewrite Forall_forall in Hcounts. rewrite (Hcounts l Hlin).
    f_equal. symmetry. apply filter_filter_implied. congruence.
Qed.

Lemma delete_cascades_witness :
  ∃ page w',
    DeleteLinkView_delete "/links/" 1 clicked_world = (Return page, w')
    ∧ links_shortlink (db w') = [] ∧ links_click (db w') = [].
Proof.
  destruct (delete_cascades "/links/" 1 (add_clicks 1 sample_link)
              clicked_world)
    as (page & w' & H & _ & _ & Hlinks & Hclicks & _).
  - by vm_compute.
  - exists page, w'. split; [exact H|].
    split; [by rewrite Hlinks|by rewrite Hclicks].
Defined.

(** X19.  [DeleteLinkView.delete] of a primary key that no stored link has
    raises [Http404] and changes nothing. *)
Theorem delete_unknown_link success_url pk w :
  pk ∉ map ShortLink.id (links_shortlink (db w)) →
  DeleteLinkView_delete success_url pk w = (Raise Http404, w).
Proof.
  intros Hnot. unfold DeleteLinkView_delete, bind, get_object.
  rewrite filter_none; [done|].
  intros l Hl Heq. apply Hnot. rewrite <- Heq.
  apply list_elem_of_In, in_map. by apply list_elem_of_In.
Qed.

Lemma delete_unknown_link_witness :
  DeleteLinkView_delete "/links/" 5 linked_world = (Raise Http404, linked_world).
Proof.
  apply delete_unknown_link. apply (bool_decide_unpack _). by vm_compute.
Defined.

(** X20.  A deleted link no longer redirects: in a database whose short
    codes are unique, after [DeleteLinkView.delete] of a link its short
    code is answered with [Http404]. *)
Theorem deleted_link_not_found success_url pk link w clean redirect
    request :
  NoDup (map ShortLink.short_code (links_shortlink (db w))) →
  get_object pk w = (Return link, w) →
  let w' := (DeleteLinkView_delete success_url pk w).2 in
  RedirectView_get clean redirect request (ShortLink.short_code link) w'
  = (Raise Http404, w').
Proof.
  intros Hnd Hget w'. pose proof (get_object_found _ _ _ Hget) as [Hin Hid].
  apply RedirectView_get_unknown. subst w'.
  unfold DeleteLinkView_delete. unfold bind at 1. rewrite Hget.
  unfold bind at 1. rewrite Hget. unfold bind, ShortLink_delete, ret.
  cbn [snd db set_db links_shortlink].
  intros (l & Hcode & Hl)%list_elem_of_In%in_map_iff.
  apply list_elem_of_In, list_elem_of_filter in Hl as [Hne Hl].
  assert (Hl' : l ∈ filter (λ y, ShortLink.short_code y
                                 = ShortLink.short_code link)
                           (links_shortlink (db w)))
    by (by apply list_elem_of_filter).
  rewrite (filter_unique ShortLink.short_code _ link Hnd Hin) in Hl'.
  apply list_elem_of_singleton in Hl' as ->. congruence.
Qed.

Lemma deleted_link_not_found_witness :
  RedirectView_get sample_clean_ipv6_address sample_redirect
    proxied_request "dkryFM"
    (DeleteLinkView_delete "/links/" 1 clicked_world).2
  = (Raise Http404, (DeleteLinkView_delete "/links/" 1 clicked_world).2).
Proof.
  apply (deleted_link_not_found "/links/" 1 (add_clicks 1 sample_link)
           clicked_world sample_clean_ipv6_address sample_redirect
           proxied_request).
  - apply (bool_decide_unpack _). by vm_compute.
  - by vm_compute.
Defined.

(** ** [LinkListView.get_queryset] *)

Lemma insert_by_perm before l sorted :
  insert_by before l sorted ≡ₚ l :: sorted.
Proof.
  induction sorted as [|x rest IH]; [done|]. cbn [insert_by].
  destruct (before l x); [done|]. rewrite IH. apply perm_swap.
Qed.

Lemma order_by_perm before rows : order_by before rows ≡ₚ rows.
Proof.
  induction rows as [|l rows IH]; [done|].
  cbn [order_by foldr]. fold (order_by before rows).
  by rewrite insert_by_perm, IH.
Qed.

Lemma order_by_sorted (before : ShortLink.t → ShortLink.t → bool)
    (R : ShortLink.t → ShortLink.t → Prop) rows :
  (∀ a b, before a b = true → R a b) →
  (∀ a b, before a b = false → R b a) →
  (∀ a b c, R a b → R b c → R a c) →
  StronglySorted R (order_by before rows).
Proof.
  intros Hyes Hno Htrans. induction rows as [|l rows IH]; [constructor|].
  cbn [order_by foldr]. fold (order_by before rows).
  induction IH as [|x rest Hrest IHrest Hx]; [repeat constructor|].
  cbn [insert_by]. destruct (before l x) eqn:Hlx.
  - constructor; [by constructor|]. constructor; [by apply Hyes|].
    eapply Forall_impl; [exact Hx|]. intros y Hy.
    eapply Htrans; [by apply Hyes|done].
  - constructor; [done|]. rewrite insert_by_perm.
    constructor; [by apply Hno|done].
Qed.

Lemma order_by_created_at_desc_eq rows :
  order_by_created_at_desc rows
  = order_by (λ l x, ShortLink.created_at x <=? ShortLink.created_at l) rows.
Proof.
  assert (Hins : ∀ l sorted,
             insert_newest_first l sorted
             = insert_by (λ l x, ShortLink.created_at x <=? ShortLink.created_at l)
                         l sorted).
  { intros l sorted. induction sorted as [|x rest IHs]; [done|].
    cbn. by rewrite IHs. }
  unfold order_by_created_at_desc, order_by.
  induction rows as [|l rows IH]; [done|]. cbn [foldr]. by rewrite IH, Hins.
Qed.

Section LinkListViewProperties.

Variable to_datetime : string → Outcome nat.

Lemma date_filter_returns value keeps test w w' :
  date_filter to_datetime value keeps w = (Return test, w') →
  w' = w
  ∧ ∀ l, test l = true ↔
         ∀ t, date_bound to_datetime value = Some t →
              keeps t (ShortLink.created_at l) = true.
Proof.
  unfold date_filter, date_bound, bind, ret.
  destruct value as [[|c rest]|].
  - intros [= <- <-]. split; [done|]. by split.
  - destruct (to_datetime _) as [t|e]; [|done].
    intros [= <- <-]. split; [done|]. intros l. split.
    + by intros H ? [= <-].
    + intros H. by apply H.
  - intros [= <- <-]. split; [done|]. by split.
Qed.

(** [get_queryset] in closed form, once it returns. *)
Lemma get_queryset_returns request w rows w' :
  LinkListView_get_queryset to_datetime request w = (Return rows, w') →
  w' = w
  ∧ ∃ query,
      GET request = Return query
      ∧ let search := Str.strip (QueryDict_get query "search" "") in
        let sort := QueryDict_get query "sort" "-created_at" in
        let date_from :=
          date_bound to_datetime (dict_of_items query !! "date_from") in
        let date_to :=
          date_bound to_datetime (dict_of_items query !! "date_to") in
        ∃ chosen,
          (∀ l, l ∈ chosen ↔
                l ∈ links_shortlink (db w)
                ∧ selected search date_from date_to l)
          ∧ chosen ⊆+ links_shortlink (db w)
          ∧ rows = match requested_order sort with
                   | Some before => order_by before chosen
                   | None => order_by_created_at_desc chosen
                   end.
Proof.
  unfold LinkListView_get_queryset. unfold bind at 1.
  destruct (GET request) as [query|e]; [|done].
  unfold bind at 1.
  destruct (date_filter _ _ (λ bound t, bound <=? t) w) as [[by_from|e] w1]
    eqn:Hfrom; [|done].
  apply date_filter_returns in Hfrom as [-> Hfrom].
  unfold bind at 1.
  destruct (date_filter _ _ (λ bound t, t <=? bound) w) as [[by_to|e] w2]
    eqn:Hto; [|done].
  apply date_filter_returns in Hto as [-> Hto].
  unfold bind, ret. intros [= <- <-]. split; [done|].
  exists query. split; [done|]. cbv zeta. eexists. split; [|split; [|done]].
  - intros l. rewrite list_elem_of_filter. split.
    + intros [Hsel Hin]. split; [done|].
      apply andb_true_iff in Hsel as [Hsel Hdto].
      apply andb_true_iff in Hsel as [Hsearch Hdfrom].
      split; [|split].
      * destruct (Str.strip _); [by left|]. right.
        by apply orb_true_iff in Hsearch.
      * intros t Ht. apply Nat.leb_le. by apply (proj1 (Hfrom l)).
      * intros t Ht. apply Nat.leb_le. by apply (proj1 (Hto l)).
    + intros [Hin (Hsearch & Hdfrom & Hdto)]. split; [|done].
      apply andb_true_iff. split; [apply andb_true_iff; split|].
      * destruct (Str.strip _); [done|]. apply orb_true_iff.
        by destruct Hsearch as [?|?].
      * apply Hfrom. intros t Ht. apply Nat.leb_le. by apply Hdfrom.
      * apply Hto. intros t Ht. apply Nat.leb_le. by apply Hdto.
  - apply sublist_submseteq, sublist_filter.
Qed.

(** X21.  The list shows exactly the links that were asked for: a row is
    listed if and only if it is stored, matches the search term (trimmed;
    in its URL or its short code, whatever the case of the ASCII letters)
    and lies within the date bounds; no stored row is listed more often
    than it is stored, and listing changes nothing. *)
Theorem get_queryset_selects request w rows w' :
  LinkListView_get_queryset to_datetime request w = (Return rows, w') →
  w' = w
  ∧ ∃ query,
      GET request = Return query
      ∧ rows ⊆+ links_shortlink (db w)
      ∧ ∀ l, l ∈ rows ↔
             l ∈ links_shortlink (db w)
             ∧ selected (Str.strip (QueryDict_get query "search" ""))
                 (date_bound to_datetime (dict_of_items query !! "date_from"))
                 (date_bound to_datetime (dict_of_items query !! "date_to"))
                 l.
Proof.
  intros (-> & query & HGET & chosen & Hchosen & Hsub & ->)%get_queryset_returns.
  split; [done|]. exists query. split; [done|].
  assert (Hperm : match requested_order (QueryDict_get query "sort" "-created_at")
                  with
                  | Some before => order_by before chosen
                  | None => order_by_created_at_desc chosen
                  end ≡ₚ chosen).
  { destruct (requested_order _);
      [apply order_by_perm|apply order_by_created_at_desc_perm]. }
  split; [by rewrite Hperm|]. intros l. by rewrite Hperm.
Qed.

(** X22.  The list comes in the order that was asked for: by clicks or by
    creation time, ascending or descending, for the four values of [sort]
    the view knows; for any other value, and without [sort], newest
    first. *)
Theorem get_queryset_sorted request w rows w' :
  LinkListView_get_queryset to_datetime request w = (Return rows, w') →
  ∃ query,
    GET request = Return query
    ∧ let sort := QueryDict_get query "sort" "-created_at" in
      (sort = "clicks_count" →
       StronglySorted (λ a b, ShortLink.clicks_count a ≤ ShortLink.clicks_count b)
                      rows)
      ∧ (sort = "-clicks_count" →
         StronglySorted
           (λ a b, ShortLink.clicks_count b ≤ ShortLink.clicks_count a) rows)
      ∧ (sort = "created_at" →
         StronglySorted (λ a b, ShortLink.created_at a ≤ ShortLink.created_at b)
                        rows)
      ∧ (sort ≠ "clicks_count" → sort ≠ "-clicks_count" →
         sort ≠ "created_at" →
         StronglySorted (λ a b, ShortLink.created_at b ≤ ShortLink.created_at a)
                        rows).
Proof.
  intros (_ & query & HGET & chosen & _ & _ & ->)%get_queryset_returns.
  exists query. split; [done|]. cbv zeta.
  assert (Hasc : ∀ key : ShortLink.t → nat,
             StronglySorted (λ a b, key a ≤ key b)
                            (order_by (λ l x, key l <=? key x) chosen)).
  { intros key. apply order_by_sorted.
    - intros a b H. by apply Nat.leb_le.
    - intros a b H%Nat.leb_gt. lia.
    - intros a b c. lia. }
  assert (Hdesc : ∀ key : ShortLink.t → nat,
             StronglySorted (λ a b, key b ≤ key a)
                            (order_by (λ l x, key x <=? key l) chosen)).
  { intros key. apply order_by_sorted.
    - intros a b H. by apply Nat.leb_le.
    - intros a b H%Nat.leb_gt. lia.
    - intros a b c. lia. }
  split; [|split; [|split]].
  - intros ->. apply (Hasc ShortLink.clicks_count).
  - intros ->. apply (Hdesc ShortLink.clicks_count).
  - intros ->. apply (Hasc ShortLink.created_at).
  - intros H1 H2 H3. unfold requested_order.
    destruct (decide _); [apply (Hdesc ShortLink.created_at)|].
    rewrite (decide_False (P := _ = "created_at")) by done.
    rewrite (decide_False (P := _ = "-clicks_count")) by done.
    rewrite (decide_False (P := _ = "clicks_count")) by done.
    rewrite order_by_created_at_desc_eq. apply (Hdesc ShortLink.created_at).
Qed.

End LinkListViewProperties.

Lemma get_queryset_selects_witness :
  LinkListView_get_queryset sample_to_datetime list_request listing_world
  = (Return [listed_second; listed_first], listing_world)
  ∧ [listed_second; listed_first] ⊆+ links_shortlink (db listing_world)
  ∧ selected "EXAMPLE" (Some 50) None listed_first
  ∧ selected "EXAMPLE" (Some 50) None listed_second
  ∧ ¬ selected "EXAMPLE" (Some 50) None unrelated_link
  ∧ ¬ selected "EXAMPLE" (Some 50) None old_link.
Proof.
  destruct (get_queryset_selects sample_to_datetime list_request
              listing_world [listed_second; listed_first] listing_world)
    as (_ & query & HGET & Hsub & Hiff); [by vm_compute|].
  injection HGET as <-.
  assert (Hrows : ∀ l, l ∈ [listed_second; listed_first] ↔
                       l ∈ links_shortlink (db listing_world)
                       ∧ selected "EXAMPLE" (Some 50) None l)
    by exact Hiff.
  split; [by vm_compute|]. split; [exact Hsub|].
  split; [apply Hrows; right; by left|].
  split; [apply Hrows; by left|].
  split; intros Hsel.
  - assert (Hin : unrelated_link ∈ [listed_second; listed_first]).
    { apply Hrows. split; [|exact Hsel]. do 2 right. by left. }
    apply list_elem_of_In in Hin. by destruct Hin as [|[|[]]].
  - assert (Hin : old_link ∈ [listed_second; listed_first]).
    { apply Hrows. split; [|exact Hsel]. do 3 right. by left. }
    apply list_elem_of_In in Hin. by destruct Hin as [|[|[]]].
Defined.

Lemma get_queryset_sorted_witness :
  LinkListView_get_queryset sample_to_datetime list_request listing_world
  = (Return [listed_second; listed_first], listing_world)
  ∧ StronglySorted
      (λ a b, ShortLink.clicks_count a ≤ ShortLink.clicks_count b)
      [listed_second; listed_first]
  ∧ links_shortlink (db listing_world)
    = [listed_first; listed_second; unrelated_link; old_link].
Proof.
  destruct (get_queryset_sorted sample_to_datetime list_request
              listing_world [listed_second; listed_first] listing_world)
    as (query & HGET & Hasc & _); [by vm_compute|].
  injection HGET as <-. split; [by vm_compute|].
  split; [by apply Hasc|by vm_compute].
Defined.
